(** * LDAP authentication for the Backstage ldap-auth backend

    A shallow embedding of [plugins/ldap-auth-backend/src/ldapClient.ts]
    (authenticateWithLdap and its helpers), of the types of [types.ts] and
    of the failure branch of [handleCredentialAuth] in [provider.ts],
    followed by the properties of the authentication sequence.

    Strings.  A JavaScript string is a sequence of UTF-16 code units.  The
    two regular expressions of the module and the dollar patterns of
    [String.prototype.replace] only ever look at ASCII characters and copy
    every other unit unchanged, so a string is modelled by [string], read
    as the sequence of its UTF-8 bytes. *)

From Stdlib Require Import Ascii String List ZArith Lia.
From stdpp Require Import base option gmap strings.
Import ListNotations.

Local Open Scope string_scope.

(** ** JavaScript values found on a directory entry *)

(** The values a property of an [Entry] can hold.  ldapts produces strings,
    Buffers and arrays of them; the source types an entry as
    [Record<string, unknown>], so the remaining primitive shapes are kept
    too. *)
#[warnings="-register-all"]
Inductive jsval : Type :=
  | JUndefined
  | JNull
  | JBoolean (b : bool)
  | JNumber (z : Z)
  | JString (s : string)
  | JBuffer (bytes : string)
  | JArray (elems : list jsval).

(** [typeof v === 'string'] *)
Definition typeof_string (v : jsval) : option string :=
  match v with
  | JString s => Some s
  | _ => None
  end.

(** [value.filter((v): v is string => typeof v === 'string')] *)
Definition filter_strings (elems : list jsval) : list string :=
  omap typeof_string elems.

(** [value[0]] on an array: the first element, [undefined] when empty. *)
Definition array_first (elems : list jsval) : jsval :=
  match elems with
  | [] => JUndefined
  | v :: _ => v
  end.

(** ** The ldapts interface *)

Module Ldapts.

(** Constructor options of [Client]: the url, and [tlsOptions] holding
    [rejectUnauthorized] when it was set. *)
Record ClientOptions : Type := {
  url : string;
  tlsOptions : option bool
}.

Record SearchOptions : Type := {
  filter : string;
  attributes : list string;
  scope : string
}.

(** A search entry: its [dn] and its other own properties, named by the
    attribute descriptions of the directory. *)
Record Entry : Type := {
  dn : string;
  attrs : gmap string jsval
}.

(** [entry[attribute]].  Names that are no own property of the entry read
    as [undefined]; a name found only on [Object.prototype] reads in
    JavaScript as a function or an object, which every reader below
    treats exactly as [undefined]. *)
Definition get (entry : Entry) (attribute : string) : jsval :=
  if String.eqb attribute "dn" then JString (dn entry)
  else default JUndefined (attrs entry !! attribute).

End Ldapts.

(** ** types.ts *)

Record TlsConfig : Type := {
  rejectUnauthorized : bool
}.

Record LdapClientConfig : Type := {
  url : string;
  bindDN : option string;
  bindCredentials : option string;
  searchBase : string;
  usernameAttribute : string;
  searchFilter : string;
  userAttributes : list string;
  tls : TlsConfig
}.

(** [string | string[]], the defined values of [LdapUserInfo.attributes]. *)
Inductive attr_value : Type :=
  | AttrString (s : string)
  | AttrStrings (l : list string).

Record LdapUserInfo : Type := {
  dn : string;
  uid : string;
  displayName : option string;
  email : option string;
  memberOf : option (list string);
  attributes : gmap string attr_value
}.

(** ** String helpers of the JavaScript runtime *)

(** One hexadecimal digit, lower case as [Number.prototype.toString]
    prints it. *)
Definition hex_digit (n : N) : ascii :=
  match n with
  | 0 => "0" | 1 => "1" | 2 => "2" | 3 => "3" | 4 => "4" | 5 => "5"
  | 6 => "6" | 7 => "7" | 8 => "8" | 9 => "9" | 10 => "a" | 11 => "b"
  | 12 => "c" | 13 => "d" | 14 => "e" | _ => "f"
  end%N%char.

(** [n.toString(16)] for a code below 256 (one or two digits). *)
Definition toString16 (n : N) : string :=
  if (n <? 16)%N then String (hex_digit n) ""
  else String (hex_digit (n / 16)) (String (hex_digit (n mod 16)) "").

Fixpoint repeat_char (c : ascii) (n : nat) : string :=
  match n with
  | O => ""
  | S k => String c (repeat_char c k)
  end.

(** [s.padStart(len, c)] with a one-character filler. *)
Definition padStart (len : nat) (c : ascii) (s : string) : string :=
  repeat_char c (len - String.length s) ++ s.

(** [s.startsWith(p)] *)
Definition startsWith (s p : string) : bool := String.prefix p s.

Fixpoint drop_chars (n : nat) (s : string) : string :=
  match n, s with
  | O, _ => s
  | S k, String _ s' => drop_chars k s'
  | S _, EmptyString => EmptyString
  end.

(** Truthiness of an optional string property: [undefined] and the empty
    string are falsy. *)
Definition truthy (o : option string) : bool :=
  match o with
  | Some (String _ _) => true
  | _ => false
  end.

(** ** escapeLdapFilter *)

(** The character class of the regular expression of [escapeLdapFilter]:
    backslash, asterisk, the two parentheses, the double quote, NUL and
    the forward slash. *)
Definition filter_special (c : ascii) : bool :=
  (Ascii.eqb c "\" || Ascii.eqb c "*" || Ascii.eqb c "(" || Ascii.eqb c ")"
   || Ascii.eqb c "034" || Ascii.eqb c "000" || Ascii.eqb c "/")%char.

(** The replacer callback:
    a backslash, then [char.charCodeAt(0).toString(16).padStart(2, '0')]. *)
Definition escape_char (c : ascii) : string :=
  String "\"%char (padStart 2 "0"%char (toString16 (N_of_ascii c))).

Fixpoint escapeLdapFilter (input : string) : string :=
  match input with
  | EmptyString => EmptyString
  | String c rest =>
      if filter_special c then escape_char c ++ escapeLdapFilter rest
      else String c (escapeLdapFilter rest)
  end.

(** ** String.prototype.replace with a replacement string *)

(** GetSubstitution of ECMA-262 for a pattern without capture groups:
    in the replacement text a dollar followed by a dollar gives one dollar,
    dollar-ampersand the matched text, dollar-backquote the part of the
    subject before the match, dollar-quote the part after it; any other
    dollar (a digit with no such group, a bracket with no named group)
    stays as it is. *)
Fixpoint getSubstitution (matched before after replacement : string) : string :=
  match replacement with
  | EmptyString => EmptyString
  | String c tl =>
      if Ascii.eqb c "$"%char then
        match tl with
        | String d tl' =>
            if Ascii.eqb d "$"%char then String "$"%char (getSubstitution matched before after tl')
            else if Ascii.eqb d "&"%char then matched ++ getSubstitution matched before after tl'
            else if Ascii.eqb d "`"%char then before ++ getSubstitution matched before after tl'
            else if Ascii.eqb d "'"%char then after ++ getSubstitution matched before after tl'
            else String c (getSubstitution matched before after tl)
        | EmptyString => String c EmptyString
        end
      else String c (getSubstitution matched before after tl)
  end.

(** [subject.replace(/pat/g, replacement)] for a literal, non-empty
    pattern: the matches are found left to right without overlap, each is
    replaced by its substitution, everything else is copied.  [before] is
    the part of the subject already passed and [skip] the number of
    characters of the current match still to pass. *)
Fixpoint replace_from (pat replacement before : string) (skip : nat) (s : string) : string :=
  match s with
  | EmptyString => EmptyString
  | String c s' =>
      match skip with
      | S k => replace_from pat replacement (before ++ String c "") k s'
      | O =>
          if String.prefix pat s then
            getSubstitution pat before (drop_chars (String.length pat) s) replacement
            ++ replace_from pat replacement (before ++ String c "") (String.length pat - 1) s'
          else String c (replace_from pat replacement (before ++ String c "") 0 s')
      end
  end.

Definition replace_all (pat replacement subject : string) : string :=
  replace_from pat replacement "" 0 subject.

(** [config.searchFilter.replace(/\{\{username\}\}/g, escapeLdapFilter(username))] *)
Definition build_filter (searchFilter username : string) : string :=
  replace_all "{{username}}" (escapeLdapFilter username) searchFilter.

(** [c] occurs in [s]. *)
Fixpoint occurs (c : ascii) (s : string) : bool :=
  match s with
  | EmptyString => false
  | String a rest => Ascii.eqb c a || occurs c rest
  end.

(** ** Attribute extraction *)

Definition extractStringAttribute (entry : Ldapts.Entry) (attribute : string) : option string :=
  match Ldapts.get entry attribute with
  | JString s => Some s
  | JArray elems => typeof_string (array_first elems)
  | _ => None
  end.

Definition extractStringArrayAttribute (entry : Ldapts.Entry) (attribute : string)
  : option (list string) :=
  match Ldapts.get entry attribute with
  | JArray elems => Some (filter_strings elems)
  | JString s => Some [s]
  | _ => None
  end.

(** [result[name] = value] on the plain object [result], seen as the map
    of its own properties.  The name __proto__ is the accessor of
    [Object.prototype]: assigning to it writes no own property (a string
    is ignored by the setter, an array becomes the prototype of the
    object).  Every other name is written. *)
Definition set_property (name : string) (value : attr_value)
    (result : gmap string attr_value) : gmap string attr_value :=
  if String.eqb name "__proto__" then result else <[name := value]> result.

(** One round of the loop of [extractAllAttributes]. *)
Definition extract_step (entry : Ldapts.Entry) (result : gmap string attr_value) (attr : string)
  : gmap string attr_value :=
  match Ldapts.get entry attr with
  | JString s => set_property attr (AttrString s) result
  | JArray elems => set_property attr (AttrStrings (filter_strings elems)) result
  | _ => result
  end.

Definition extractAllAttributes (entry : Ldapts.Entry) (attributes : list string)
  : gmap string attr_value :=
  fold_left (extract_step entry) attributes ∅.

(** ** Effects: the directory, the logger and exceptions *)

(** What a rejected promise or a [throw] carries: an [Error] object with
    its [name] and [message], or any other value. *)
Inductive thrown : Type :=
  | ErrorObject (name message : string)
  | ThrownValue (v : jsval).

(** [new Error(message)] *)
Definition new_Error (message : string) : thrown := ErrorObject "Error" message.

(** The calls the module makes on its collaborators, each with the answer
    it got.  [None] is a resolved promise, [Some e] one rejected with [e].
    Clients are numbered in the order of their construction. *)
Inductive event : Type :=
  | NewClient (c : nat) (options : Ldapts.ClientOptions)
  | Bind (c : nat) (dn password : string) (reply : option thrown)
  | Search (c : nat) (base : string) (options : Ldapts.SearchOptions)
      (reply : thrown + list Ldapts.Entry)
  | Unbind (c : nat) (reply : option thrown)
  | LogInfo (message : string)
  | LogWarn (message : string).

(** The directory behind ldapts (or a mock of it): it answers every call,
    and may let the answer depend on everything that happened before. *)
Record Directory : Type := {
  bind_reply : list event -> nat -> string -> string -> option thrown;
  search_reply : list event -> nat -> string -> Ldapts.SearchOptions ->
                 thrown + list Ldapts.Entry;
  unbind_reply : list event -> nat -> option thrown
}.

Record World : Type := {
  trace : list event;
  clients : nat
}.

Definition init_world : World := {| trace := []; clients := 0 |}.

Inductive completion (A : Type) : Type :=
  | Normal (a : A)
  | Throw (e : thrown).
Arguments Normal {A} a.
Arguments Throw {A} e.

(** An asynchronous computation, run to its end against a directory. *)
Definition M (A : Type) : Type := Directory -> World -> completion A * World.

Definition ret {A} (a : A) : M A := fun _ w => (Normal a, w).

Definition throw {A} (e : thrown) : M A := fun _ w => (Throw e, w).

Definition bind {A B} (m : M A) (k : A -> M B) : M B :=
  fun d w =>
    match m d w with
    | (Normal a, w') => k a d w'
    | (Throw e, w') => (Throw e, w')
    end.

Notation "x <- m ;; k" := (bind m (fun x => k))
  (at level 100, m at next level, right associativity).
Notation "m ;; k" := (bind m (fun _ => k))
  (at level 100, right associativity).

(** [try { body } catch (error) { handler }] *)
Definition try_catch {A} (body : M A) (handler : thrown -> M A) : M A :=
  fun d w =>
    match body d w with
    | (Normal a, w') => (Normal a, w')
    | (Throw e, w') => handler e d w'
    end.

(** [try { body } finally { cleanup }]: the cleanup always runs; the
    completion of the body stands unless the cleanup itself throws. *)
Definition try_finally {A} (body : M A) (cleanup : M unit) : M A :=
  fun d w =>
    match body d w with
    | (r, w') =>
        match cleanup d w' with
        | (Normal _, w'') => (r, w'')
        | (Throw e, w'') => (Throw e, w'')
        end
    end.

(** [promise.catch(() => {})] *)
Definition catch_ignore (m : M unit) : M unit :=
  fun d w =>
    match m d w with
    | (_, w') => (Normal tt, w')
    end.

Definition emit (ev : event) (w : World) : World :=
  {| trace := trace w ++ [ev]; clients := clients w |}.

Definition of_reply (r : option thrown) : completion unit :=
  match r with
  | None => Normal tt
  | Some e => Throw e
  end.

(** [new Client(options)], for options the constructor of ldapts accepts:
    a client is made and nothing is sent yet.  The constructor checks its
    options and throws for a url it cannot use; that check comes before
    everything else in a call and is the matter of [authenticate_call]
    below. *)
Definition new_Client (options : Ldapts.ClientOptions) : M nat :=
  fun _ w =>
    (Normal (clients w),
     {| trace := trace w ++ [NewClient (clients w) options]; clients := S (clients w) |}).

(** [client.bind(dn, password)] *)
Definition client_bind (c : nat) (dn password : string) : M unit :=
  fun d w =>
    let r := bind_reply d (trace w) c dn password in
    (of_reply r, emit (Bind c dn password r) w).

(** [client.search(base, options)], giving [searchEntries] *)
Definition client_search (c : nat) (base : string) (options : Ldapts.SearchOptions)
  : M (list Ldapts.Entry) :=
  fun d w =>
    let r := search_reply d (trace w) c base options in
    (match r with inl e => Throw e | inr entries => Normal entries end,
     emit (Search c base options r) w).

(** [client.unbind()] *)
Definition client_unbind (c : nat) : M unit :=
  fun d w =>
    let r := unbind_reply d (trace w) c in
    (of_reply r, emit (Unbind c r) w).

Definition logger_info (message : string) : M unit :=
  fun _ w => (Normal tt, emit (LogInfo message) w).

Definition logger_warn (message : string) : M unit :=
  fun _ w => (Normal tt, emit (LogWarn message) w).

(** ** authenticateWithLdap *)

Definition baseClientOptions (config : LdapClientConfig) : Ldapts.ClientOptions :=
  {| Ldapts.url := url config;
     Ldapts.tlsOptions :=
       if startsWith (url config) "ldaps://"
       then Some (rejectUnauthorized (tls config)) else None |}.

Definition search_options (username : string) (config : LdapClientConfig)
  : Ldapts.SearchOptions :=
  {| Ldapts.filter := build_filter (searchFilter config) username;
     Ldapts.attributes := usernameAttribute config :: userAttributes config;
     Ldapts.scope := "sub" |}.

Definition not_found_error (username : string) : thrown :=
  new_Error ("User '" ++ username ++ "' not found in LDAP directory").

Definition invalid_credentials_error (username : string) : thrown :=
  new_Error ("Invalid credentials for user '" ++ username ++ "'").

(** Step 4 of the source: the record built from the matched entry. *)
Definition user_info (username : string) (config : LdapClientConfig)
    (userEntry : Ldapts.Entry) : LdapUserInfo :=
  let uid := extractStringAttribute userEntry (usernameAttribute config) in
  {| dn := Ldapts.dn userEntry;
     uid := default username uid;
     displayName := extractStringAttribute userEntry "displayName";
     email := extractStringAttribute userEntry "mail";
     memberOf := extractStringArrayAttribute userEntry "memberOf";
     attributes := extractAllAttributes userEntry (userAttributes config) |}.

Definition authenticateWithLdap (username password : string) (config : LdapClientConfig)
  : M LdapUserInfo :=
  client <- new_Client (baseClientOptions config) ;;
  try_finally
    ((if truthy (bindDN config) && truthy (bindCredentials config) then
        logger_info ("Binding to LDAP as service account: " ++ default "" (bindDN config)) ;;
        client_bind client (default "" (bindDN config)) (default "" (bindCredentials config))
      else ret tt) ;;
     let filter := build_filter (searchFilter config) username in
     logger_info ("Searching for user in " ++ searchBase config
                  ++ " with filter: " ++ filter) ;;
     searchEntries <- client_search client (searchBase config)
                        (search_options username config) ;;
     match searchEntries with
     | [] => throw (not_found_error username)
     | userEntry :: _ =>
         (if (1 <? List.length searchEntries)%nat then
            logger_warn ("Multiple users found for '" ++ username
                         ++ "', using first result")
          else ret tt) ;;
         let userDN := Ldapts.dn userEntry in
         client_unbind client ;;
         userClient <- new_Client (baseClientOptions config) ;;
         try_finally
           (try_catch
              (client_bind userClient userDN password ;;
               logger_info ("User '" ++ username ++ "' authenticated successfully"))
              (fun _ => throw (invalid_credentials_error username)))
           (catch_ignore (client_unbind userClient)) ;;
         ret (user_info username config userEntry)
     end)
    (catch_ignore (client_unbind client)).

(** One call of [authenticateWithLdap], from a fresh world. *)
Definition run_authenticate (d : Directory) (username password : string)
    (config : LdapClientConfig) : completion LdapUserInfo * list event :=
  let (r, w) := authenticateWithLdap username password config d init_world in
  (r, trace w).

(** ** The failure branch of handleCredentialAuth *)

Record ErrorResponse : Type := {
  status : nat;
  error_name : string;
  error_message : string
}.

(** The [catch] clause of the handler: status 401, with the message of the
    error when it is an [Error]. *)
Definition auth_failure_response (error : thrown) : ErrorResponse :=
  let message :=
    match error with
    | ErrorObject _ m => m
    | ThrownValue _ => "LDAP authentication failed"
    end in
  {| status := 401; error_name := "AuthenticationError"; error_message := message |}.

(** ** Reading a trace *)

Definition is_warning (ev : event) : bool :=
  match ev with
  | LogWarn _ => true
  | _ => false
  end.

(** The number of warning notices the logger received. *)
Definition warnings (t : list event) : nat :=
  List.length (List.filter is_warning t).

(** Calls made on (or constructing) client [c]. *)
Definition on_client (c : nat) (ev : event) : bool :=
  match ev with
  | NewClient c' _ | Bind c' _ _ _ | Search c' _ _ _ | Unbind c' _ => Nat.eqb c c'
  | LogInfo _ | LogWarn _ => false
  end.

(** The last call made on client [c]. *)
Definition last_call (c : nat) (t : list event) : option event :=
  last (List.filter (on_client c) t).

(** Client [c] is released: the last thing done with it is [unbind]. *)
Definition released (c : nat) (t : list event) : bool :=
  match last_call c t with
  | Some (Unbind _ _) => true
  | _ => false
  end.

(** The error a call was answered with, if it failed. *)
Definition call_error (ev : event) : option thrown :=
  match ev with
  | Bind _ _ _ reply => reply
  | Search _ _ _ (inl e) => Some e
  | Unbind _ reply => reply
  | _ => None
  end.

(** A search that found no entry. *)
Definition empty_search (ev : event) : bool :=
  match ev with
  | Search _ _ _ (inr []) => true
  | _ => false
  end.

Definition failed (ev : event) : bool :=
  match call_error ev with
  | Some _ => true
  | None => false
  end.

(** The defined value [extractAllAttributes] stores for a property that
    can be written. *)
Definition stored_value (v : jsval) : option attr_value :=
  match v with
  | JString s => Some (AttrString s)
  | JArray elems => Some (AttrStrings (filter_strings elems))
  | _ => None
  end.

(** What the loop leaves under a name it was asked for: the stored form
    of the entry's value, or what was there before when the entry has
    nothing to store or the name cannot be written. *)
Definition written (entry : Ldapts.Entry) (a : string) (before : option attr_value)
  : option attr_value :=
  if String.eqb a "__proto__" then before
  else from_option Some before (stored_value (Ldapts.get entry a)).

(** ** Fixtures: the configurations, entries and mock directories of
    ldapClient.test.ts *)

Definition defaultConfig : LdapClientConfig :=
  {| url := "ldaps://ldap.example.com:636";
     bindDN := Some "cn=service,dc=example,dc=org";
     bindCredentials := Some "service-password";
     searchBase := "ou=users,dc=example,dc=org";
     usernameAttribute := "uid";
     searchFilter := "(uid={{username}})";
     userAttributes := ["mail"; "displayName"; "memberOf"];
     tls := {| rejectUnauthorized := true |} |}.

Definition anonConfig : LdapClientConfig :=
  {| url := url defaultConfig;
     bindDN := None;
     bindCredentials := None;
     searchBase := searchBase defaultConfig;
     usernameAttribute := usernameAttribute defaultConfig;
     searchFilter := searchFilter defaultConfig;
     userAttributes := userAttributes defaultConfig;
     tls := tls defaultConfig |}.

(** A configuration that also asks for a binary attribute. *)
Definition photoConfig : LdapClientConfig :=
  {| url := url defaultConfig;
     bindDN := bindDN defaultConfig;
     bindCredentials := bindCredentials defaultConfig;
     searchBase := searchBase defaultConfig;
     usernameAttribute := usernameAttribute defaultConfig;
     searchFilter := searchFilter defaultConfig;
     userAttributes := ["mail"; "jpegPhoto"; "memberOf"];
     tls := tls defaultConfig |}.

(** A bind identity with no credentials. *)
Definition halfConfig : LdapClientConfig :=
  {| url := url defaultConfig;
     bindDN := bindDN defaultConfig;
     bindCredentials := None;
     searchBase := searchBase defaultConfig;
     usernameAttribute := usernameAttribute defaultConfig;
     searchFilter := searchFilter defaultConfig;
     userAttributes := userAttributes defaultConfig;
     tls := tls defaultConfig |}.

Definition jdoe : Ldapts.Entry :=
  {| Ldapts.dn := "uid=jdoe,ou=users,dc=example,dc=org";
     Ldapts.attrs :=
       list_to_map
         [("uid", JString "jdoe");
          ("mail", JString "jdoe@example.com");
          ("displayName", JString "John Doe");
          ("memberOf", JArray [JString "cn=developers,ou=groups,dc=example,dc=org"])] |}.

Definition jdoe2 : Ldapts.Entry :=
  {| Ldapts.dn := "uid=jdoe2,ou=users,dc=example,dc=org";
     Ldapts.attrs := list_to_map [("uid", JString "jdoe")] |}.

(** An entry whose [memberOf] came back as one string, and whose
    [jpegPhoto] came back as two binary values. *)
Definition solo : Ldapts.Entry :=
  {| Ldapts.dn := "uid=solo,ou=users,dc=example,dc=org";
     Ldapts.attrs :=
       list_to_map
         [("uid", JArray [JString "solo"; JString "solitaire"]);
          ("jpegPhoto", JArray [JBuffer "p1"; JBuffer "p2"]);
          ("memberOf", JString "cn=ops,ou=groups,dc=example,dc=org")] |}.

(** A mock directory: the answer to [bind] depends on the client only,
    [search] always finds [found], [unbind] always answers [closing]. *)
Definition mock (binding : nat -> option thrown) (found : thrown + list Ldapts.Entry)
    (closing : option thrown) : Directory :=
  {| bind_reply := fun _ c _ _ => binding c;
     search_reply := fun _ _ _ _ => found;
     unbind_reply := fun _ _ => closing |}.

Definition accept_all : nat -> option thrown := fun _ => None.

(** The user bind (on the second client) is rejected with [e]. *)
Definition reject_user (e : thrown) : nat -> option thrown :=
  fun c => if Nat.eqb c 1 then Some e else None.

(** The service bind (on the first client) is rejected with [e]. *)
Definition reject_service (e : thrown) : nat -> option thrown :=
  fun c => if Nat.eqb c 0 then Some e else None.

Definition socket_closed : thrown := ErrorObject "Error" "Socket closed".

(** ** Decoding a filter value (RFC 4515)

    The module only encodes.  The decoder a directory applies to an
    assertion value is written here from RFC 4515, section 3: a backslash
    and two hexadecimal digits stand for the character of that code, every
    other character for itself. *)

(** The value of a hexadecimal digit, in either case. *)
Definition hex_value (c : ascii) : option N :=
  let n := N_of_ascii c in
  if ((48 <=? n) && (n <=? 57))%N then Some (n - 48)%N
  else if ((97 <=? n) && (n <=? 102))%N then Some (n - 87)%N
  else if ((65 <=? n) && (n <=? 70))%N then Some (n - 55)%N
  else None.

Fixpoint rfc4515_decode (value : string) : option string :=
  match value with
  | EmptyString => Some EmptyString
  | String c rest =>
      if Ascii.eqb c "\"%char then
        match rest with
        | String h1 (String h2 rest') =>
            match hex_value h1, hex_value h2, rfc4515_decode rest' with
            | Some a, Some b, Some r => Some (String (ascii_of_N (16 * a + b)) r)
            | _, _, _ => None
            end
        | _ => None
        end
      else
        match rfc4515_decode rest with
        | Some r => Some (String c r)
        | None => None
        end
  end.

(** The number of characters of [s] that [escapeLdapFilter] escapes. *)
Fixpoint count_special (s : string) : nat :=
  match s with
  | EmptyString => 0
  | String c rest => (if filter_special c then 1 else 0) + count_special rest
  end.

(** [pat] matches somewhere in [s] ([pat] not empty). *)
Fixpoint contains (pat s : string) : bool :=
  match s with
  | EmptyString => false
  | String _ rest => String.prefix pat s || contains pat rest
  end.

(** ** Reading more of a trace *)

Definition is_new_client (ev : event) : bool :=
  match ev with
  | NewClient _ _ => true
  | _ => false
  end.

(** A bind or a search, the calls that use the identity of a client. *)
Definition uses_identity (ev : event) : bool :=
  match ev with
  | Bind _ _ _ _ | Search _ _ _ _ => true
  | _ => false
  end.

(** A bind made on client [c]. *)
Definition bind_on (c : nat) (ev : event) : bool :=
  match ev with
  | Bind c' _ _ _ => Nat.eqb c c'
  | _ => false
  end.

(** No bind and no search is made on a client after an [unbind] of it. *)
Fixpoint quiet_after_release (t : list event) : bool :=
  match t with
  | [] => true
  | Unbind c _ :: rest =>
      negb (existsb (fun ev => on_client c ev && uses_identity ev) rest)
      && quiet_after_release rest
  | _ :: rest => quiet_after_release rest
  end.

(** [config] with another [tls] block. *)
Definition with_tls (config : LdapClientConfig) (t : TlsConfig) : LdapClientConfig :=
  {| url := url config;
     bindDN := bindDN config;
     bindCredentials := bindCredentials config;
     searchBase := searchBase config;
     usernameAttribute := usernameAttribute config;
     searchFilter := searchFilter config;
     userAttributes := userAttributes config;
     tls := t |}.

(** ** authenticateWithLdap with the check of the constructor

    [new Client(options)] throws when ldapts cannot use the url of its
    options.  ldapts is not part of the repository, so its check is a
    parameter, [constructor], giving the error thrown, if any; it looks
    at the options only.  The first construction stands before the [try]:
    when it throws, the call ends with that error and nothing was sent,
    logged or released.  The second construction has the same options, so
    it succeeds whenever the first did, and the rest of the call is
    [run_authenticate]. *)
Definition authenticate_call (constructor : Ldapts.ClientOptions -> option thrown)
    (d : Directory) (username password : string) (config : LdapClientConfig)
  : completion LdapUserInfo * list event :=
  match constructor (baseClientOptions config) with
  | Some e => (Throw e, [])
  | None => run_authenticate d username password config
  end.

(** ** resolvers.ts *)

(** The argument of [ctx.signInWithCatalogUser]: an entity reference by
    name, or a set of annotations. *)
Inductive CatalogQuery : Type :=
  | ByEntityRef (name : string)
  | ByAnnotations (annotations : list (string * string)).

Record BackstageUserIdentity : Type := {
  identity_type : string;
  userEntityRef : string;
  ownershipEntityRefs : list string
}.

Record BackstageSignInResult : Type := {
  token : string;
  identity : option BackstageUserIdentity
}.

(** The resolver context of the auth backend: the catalog answers a query
    with a sign-in result or rejects it. *)
Record AuthResolverContext : Type := {
  signInWithCatalogUser : CatalogQuery -> thrown + BackstageSignInResult
}.

Definition usernameMatchingUserEntityName (ctx : AuthResolverContext) (userInfo : LdapUserInfo)
  : thrown + BackstageSignInResult :=
  signInWithCatalogUser ctx (ByEntityRef (uid userInfo)).

Definition emailMatchingUserEntityAnnotation (ctx : AuthResolverContext)
    (userInfo : LdapUserInfo) : thrown + BackstageSignInResult :=
  if truthy (email userInfo) then
    signInWithCatalogUser ctx
      (ByAnnotations [("backstage.io/ldap-email", default "" (email userInfo))])
  else
    inl (new_Error
           "LDAP user does not have an email attribute, cannot resolve to a Backstage user").

(** ** provider.ts: the configuration *)

(** Sequencing of steps that may throw. *)
Definition and_then {A B} (r : thrown + A) (k : A -> thrown + B) : thrown + B :=
  match r with
  | inl e => inl e
  | inr a => k a
  end.

Notation "'attempt' x ':=' r 'in' k" := (and_then r (fun x => k))
  (at level 10, x name, r at level 100, k at level 200).

Module Backstage.

(** The [Config] interface of the host: every reader may throw (a missing
    mandatory key, a value of the wrong type); the optional readers give
    [undefined] for a missing key. *)
#[warnings="-register-all"]
Inductive Config : Type := mkConfig {
  has : string -> bool;
  keys : list string;
  getConfig : string -> thrown + Config;
  getString : string -> thrown + string;
  getOptionalString : string -> thrown + option string;
  getOptionalStringArray : string -> thrown + option (list string);
  getOptionalBoolean : string -> thrown + option bool
}.

(** [new InputError(message)] and [new NotFoundError(message)]: errors
    named after their class. *)
Definition InputError (message : string) : thrown := ErrorObject "InputError" message.
Definition NotFoundError (message : string) : thrown := ErrorObject "NotFoundError" message.

End Backstage.

(** The properties of the object literal are read in the order they are
    written; the first reader that throws ends the call. *)
Definition readLdapEnvironmentConfig (config : Backstage.Config) : thrown + LdapClientConfig :=
  attempt url := Backstage.getString config "url" in
  attempt bindDN := Backstage.getOptionalString config "bindDN" in
  attempt bindCredentials := Backstage.getOptionalString config "bindCredentials" in
  attempt searchBase := Backstage.getString config "searchBase" in
  attempt usernameAttribute := Backstage.getOptionalString config "usernameAttribute" in
  attempt searchFilter := Backstage.getOptionalString config "searchFilter" in
  attempt userAttributes := Backstage.getOptionalStringArray config "userAttributes" in
  attempt rejectUnauthorized := Backstage.getOptionalBoolean config "tls.rejectUnauthorized" in
  inr {| url := url;
         bindDN := bindDN;
         bindCredentials := bindCredentials;
         searchBase := searchBase;
         usernameAttribute := default "uid" usernameAttribute;
         searchFilter := default "(uid={{username}})" searchFilter;
         userAttributes := default ["mail"; "displayName"; "memberOf"] userAttributes;
         tls := {| rejectUnauthorized := default true rejectUnauthorized |} |}.

(** What reading the block of one environment gives. *)
Definition read_block (config : Backstage.Config) (env : string) : thrown + LdapClientConfig :=
  attempt sub := Backstage.getConfig config env in readLdapEnvironmentConfig sub.

(** The loop that fills [envConfigs]. *)
Fixpoint read_environments (config : Backstage.Config) (envs : list string)
    (envConfigs : gmap string LdapClientConfig) : thrown + gmap string LdapClientConfig :=
  match envs with
  | [] => inr envConfigs
  | env :: rest =>
      attempt sub := Backstage.getConfig config env in
      attempt read := readLdapEnvironmentConfig sub in
      read_environments config rest (<[env := read]> envConfigs)
  end.

(** [defaultEnv]; [node_env] is [process.env.NODE_ENV]. *)
Definition defaultEnv (node_env : option string) (envs : list string)
    (envConfigs : gmap string LdapClientConfig) : option string :=
  match envs with
  | [env] => Some env
  | _ =>
      match node_env with
      | Some mode =>
          if String.eqb mode "development"
             && bool_decide (is_Some (envConfigs !! "development"))
          then Some "development" else None
      | None => None
      end
  end.

(** The getter for environment-scoped configuration.  [reqEnv] is the
    value of [req?.query?.env?.toString()]. *)
Definition select_environment (envConfigs : gmap string LdapClientConfig)
    (fallback : option string) (reqEnv : option string) : thrown + LdapClientConfig :=
  let env := match reqEnv with Some e => Some e | None => fallback end in
  if truthy env then
    match envConfigs !! default "" env with
    | Some selected => inr selected
    | None =>
        inl (Backstage.NotFoundError
               ("No configuration available for the '" ++ default "" env
                ++ "' environment of this provider."))
    end
  else inl (Backstage.InputError "Must specify 'env' query to select environment").

Definition createLdapConfigGetter (node_env : option string) (config : Backstage.Config)
  : thrown + (option string -> thrown + LdapClientConfig) :=
  if Backstage.has config "url" then
    attempt single := readLdapEnvironmentConfig config in
    inr (fun _ => inr single)
  else
    let envs := Backstage.keys config in
    attempt envConfigs := read_environments config envs ∅ in
    inr (select_environment envConfigs (defaultEnv node_env envs envConfigs)).

(** ** provider.ts: the route handlers *)

(** The two fields the handler takes from the JSON body. *)
Record RequestBody : Type := {
  field_username : option string;
  field_password : option string
}.

(** What the handlers read of an Express request: the method, the [env]
    query parameter as a string, and the body, which is [undefined] when
    no body parser filled it. *)
Record Request : Type := {
  method : string;
  query_env : option string;
  req_body : option RequestBody
}.

(** [req.body?.username] and [req.body?.password] *)
Definition body_username (req : Request) : option string :=
  match req_body req with
  | Some fields => field_username fields
  | None => None
  end.

Definition body_password (req : Request) : option string :=
  match req_body req with
  | Some fields => field_password fields
  | None => None
  end.

(** The TypeError of destructuring an undefined [req.body]; the wording
    of its message is the engine's. *)
Definition body_missing_error : thrown :=
  ErrorObject "TypeError"
    "Cannot destructure property 'username' of 'req.body' as it is undefined.".

(** The JSON bodies the handlers send. *)
Inductive ResponseBody : Type :=
  | BodyError (error : string)
  | BodyAuthenticationError (name message : string)
  | BodySignedIn (uid : string) (memberOf : option (list string))
      (email displayName : option string) (token : string)
      (identity : option BackstageUserIdentity)
  | BodyOk.

(** What a handler does: the calls [authenticateWithLdap] made (its
    notices to the shared logger included), the sign-in with the catalog,
    the error line of the logger and the response; [Rejects e] is the
    handler ending with the uncaught error [e]. *)
Inductive handler_event : Type :=
  | Ldap (ev : event)
  | SignIn (query : CatalogQuery) (reply : thrown + BackstageSignInResult)
  | LogError (message : string)
  | Respond (status : nat) (body : ResponseBody)
  | Rejects (e : thrown).

(** The [catch] clause of [handleCredentialAuth]. *)
Definition respond_failure (error : thrown) : list handler_event :=
  let r := auth_failure_response error in
  [LogError ("LDAP authentication failed: " ++ error_message r);
   Respond (status r) (BodyAuthenticationError (error_name r) (error_message r))].

(** The body is destructured before the [try]: without a body the handler
    ends with the TypeError, and no response is sent. *)
Definition handleCredentialAuth (getLdapConfig : option string -> thrown + LdapClientConfig)
    (d : Directory) (ctx : AuthResolverContext) (req : Request) : list handler_event :=
  match req_body req with
  | None => [Rejects body_missing_error]
  | Some fields =>
      if negb (truthy (field_username fields)) || negb (truthy (field_password fields)) then
        [Respond 400 (BodyError "Missing username or password in request body")]
      else
        let username := default "" (field_username fields) in
        let password := default "" (field_password fields) in
        match getLdapConfig (query_env req) with
        | inl error => respond_failure error
        | inr ldapConfig =>
            let (outcome, t) := run_authenticate d username password ldapConfig in
            (map Ldap t ++
             match outcome with
             | Throw error => respond_failure error
             | Normal userInfo =>
                 let query := ByEntityRef (uid userInfo) in
                 let reply := signInWithCatalogUser ctx query in
                 SignIn query reply ::
                 match reply with
                 | inl error => respond_failure error
                 | inr backstageIdentity =>
                     [Respond 200
                        (BodySignedIn (uid userInfo) (memberOf userInfo) (email userInfo)
                           (displayName userInfo) (token backstageIdentity)
                           (identity backstageIdentity))]
                 end
             end)%list
        end
  end.

Definition method_not_allowed : list handler_event :=
  [Respond 405
     (BodyError "LDAP auth expects POST /handler/frame with a JSON body { username, password }")].

Definition start : list handler_event := method_not_allowed.

Definition frameHandler (getLdapConfig : option string -> thrown + LdapClientConfig)
    (d : Directory) (ctx : AuthResolverContext) (req : Request) : list handler_event :=
  if negb (String.eqb (method req) "POST") then method_not_allowed
  else handleCredentialAuth getLdapConfig d ctx req.

Definition refresh : list handler_event :=
  [Respond 501 (BodyError "Token refresh is managed by the Backstage session layer")].

Definition logout : list handler_event := [Respond 200 BodyOk].

(** The responses among the events of a handler. *)
Definition responses (evs : list handler_event) : list (nat * ResponseBody) :=
  omap (fun ev => match ev with Respond s b => Some (s, b) | _ => None end) evs.

(** The directory calls among the events of a handler. *)
Definition ldap_calls (evs : list handler_event) : list event :=
  omap (fun ev => match ev with Ldap e => Some e | _ => None end) evs.

(** The sign-in queries among the events of a handler. *)
Definition sign_ins (evs : list handler_event) : list CatalogQuery :=
  omap (fun ev => match ev with SignIn q _ => Some q | _ => None end) evs.

(** ** Fixtures: configuration objects *)

Definition missing_key (key : string) : thrown :=
  new_Error ("Missing required config value at '" ++ key ++ "'").

(** A configuration block holding string values only. *)
Definition leaf_config (strings : list (string * string)) : Backstage.Config :=
  {| Backstage.has := fun key => bool_decide (is_Some ((list_to_map strings : gmap string string) !! key));
     Backstage.keys := map fst strings;
     Backstage.getConfig := fun key => inl (missing_key key);
     Backstage.getString := fun key =>
       match (list_to_map strings : gmap string string) !! key with
       | Some v => inr v
       | None => inl (missing_key key)
       end;
     Backstage.getOptionalString := fun key =>
       inr ((list_to_map strings : gmap string string) !! key);
     Backstage.getOptionalStringArray := fun _ => inr None;
     Backstage.getOptionalBoolean := fun _ => inr None |}.

(** A configuration made of named blocks. *)
Definition scoped_config (blocks : list (string * Backstage.Config)) : Backstage.Config :=
  {| Backstage.has := fun key =>
       bool_decide (is_Some ((list_to_map blocks : gmap string Backstage.Config) !! key));
     Backstage.keys := map fst blocks;
     Backstage.getConfig := fun key =>
       match (list_to_map blocks : gmap string Backstage.Config) !! key with
       | Some c => inr c
       | None => inl (missing_key key)
       end;
     Backstage.getString := fun key => inl (missing_key key);
     Backstage.getOptionalString := fun _ => inr None;
     Backstage.getOptionalStringArray := fun _ => inr None;
     Backstage.getOptionalBoolean := fun _ => inr None |}.

Definition production_block : Backstage.Config :=
  leaf_config [("url", "ldaps://ldap.example.com:636");
               ("searchBase", "ou=users,dc=example,dc=org")].

Definition staging_block : Backstage.Config :=
  leaf_config [("url", "ldap://staging.example.com:389");
               ("searchBase", "ou=users,dc=staging,dc=org");
               ("searchFilter", "(sAMAccountName={{username}})")].

(** A block without its mandatory url. *)
Definition broken_block : Backstage.Config :=
  leaf_config [("searchBase", "ou=users,dc=example,dc=org")].

(** A catalog that knows every name and no annotation. *)
Definition catalog : AuthResolverContext :=
  {| signInWithCatalogUser := fun query =>
       match query with
       | ByEntityRef name =>
           inr {| token := "backstage-token-123";
                  identity := Some {| identity_type := "user";
                                      userEntityRef := "user:default/" ++ name;
                                      ownershipEntityRefs := ["user:default/" ++ name] |} |}
       | ByAnnotations _ => inl (new_Error "User not found")
       end |}.

Definition post_jdoe (password : option string) : Request :=
  {| method := "POST"; query_env := None;
     req_body := Some {| field_username := Some "jdoe"; field_password := password |} |}.

(** A POST that no body parser has filled. *)
Definition post_without_body : Request :=
  {| method := "POST"; query_env := None; req_body := None |}.

(** A constructor check that takes the two LDAP schemes only. *)
Definition ldap_urls_only (options : Ldapts.ClientOptions) : option thrown :=
  if startsWith (Ldapts.url options) "ldap://" || startsWith (Ldapts.url options) "ldaps://"
  then None
  else Some (new_Error (Ldapts.url options ++ " is an invalid LDAP URL (protocol)")).

(** [defaultConfig] with the url of a web server. *)
Definition httpConfig : LdapClientConfig :=
  {| url := "http://ldap.example.com";
     bindDN := bindDN defaultConfig;
     bindCredentials := bindCredentials defaultConfig;
     searchBase := searchBase defaultConfig;
     usernameAttribute := usernameAttribute defaultConfig;
     searchFilter := searchFilter defaultConfig;
     userAttributes := userAttributes defaultConfig;
     tls := tls defaultConfig |}.

(** * Properties of the authentication sequence *)

(** ** Walking the paths of a run *)

Ltac run_step :=
  cbv beta iota zeta delta
    [run_authenticate authenticateWithLdap try_finally try_catch catch_ignore
     bind ret throw client_bind client_search client_unbind logger_info
     logger_warn new_Client emit of_reply trace clients init_world app fst snd
     List.length Nat.ltb Nat.leb].

(** A trace in which no answer of the directory is pending. *)
Ltac settled t :=
  lazymatch t with
  | context [bind_reply] => fail
  | context [search_reply] => fail
  | context [unbind_reply] => fail
  | _ => idtac
  end.

(** Case analysis on the answers of the directory, in program order. *)
Ltac next_reply :=
  match goal with
  | |- context [bind_reply ?d ?t ?c ?a ?b] =>
      settled t;
      let r := fresh "bound" in
      destruct (bind_reply d t c a b) as [?err|] eqn:r
  | |- context [search_reply ?d ?t ?c ?a ?b] =>
      settled t;
      let r := fresh "found" in
      destruct (search_reply d t c a b) as [?err|[|?entry [|?entry ?more]]] eqn:r
  | |- context [unbind_reply ?d ?t ?c] =>
      settled t;
      let r := fresh "closed" in
      destruct (unbind_reply d t c) as [?err|] eqn:r
  end; run_step.

Ltac auth_paths :=
  run_step;
  match goal with
  | |- context [truthy (bindDN ?c) && truthy (bindCredentials ?c)] =>
      let b := fresh "service" in
      destruct (truthy (bindDN c) && truthy (bindCredentials c)) eqn:b
  end;
  run_step; repeat next_reply.

(** Membership of an event in a settled trace. *)
Ltac in_trace H :=
  simpl In in H;
  repeat (destruct H as [H|H]); try discriminate H; try contradiction H.

(** An event that is written in a settled trace. *)
Ltac here := simpl In; repeat (first [left; reflexivity | right]).

(** The answer to the last call of a settled trace, a release. *)
Ltac final_reply t :=
  lazymatch t with
  | [Unbind _ ?r] => r
  | _ :: ?rest => final_reply rest
  end.

(** ** Step 3: the search filter *)

Lemma occurs_app c s1 s2 : occurs c (s1 ++ s2) = occurs c s1 || occurs c s2.
Proof.
  induction s1 as [|a s1 IH]; simpl; [reflexivity|].
  rewrite IH. apply orb_assoc.
Qed.

Lemma special_cases c :
  filter_special c = true ->
  c = "\"%char \/ c = "*"%char \/ c = "("%char \/ c = ")"%char
  \/ c = "034"%char \/ c = "000"%char \/ c = "/"%char.
Proof.
  unfold filter_special. rewrite !orb_true_iff, !Ascii.eqb_eq. tauto.
Qed.

(** The six characters of the filter grammar, and the double quote, each
    become a backslash and the two hexadecimal digits of their code. *)
Lemma escape_char_table :
  escape_char "\" = "\5c" /\ escape_char "*" = "\2a" /\ escape_char "(" = "\28"
  /\ escape_char ")" = "\29" /\ escape_char "000" = "\00" /\ escape_char "/" = "\2f"
  /\ escape_char "034" = "\22".
Proof. repeat split; reflexivity. Qed.

(** What an escape is made of is never one of the escaped characters,
    the backslash that introduces it apart. *)
Lemma escape_char_clean a c :
  filter_special a = true -> filter_special c = true -> c <> "\"%char ->
  occurs c (escape_char a) = false.
Proof.
  intros Ha Hc Hne.
  destruct (special_cases a Ha) as [->|[->|[->|[->|[->|[->| ->]]]]]];
    destruct (special_cases c Hc) as [->|[->|[->|[->|[->|[->| ->]]]]]];
    try reflexivity; congruence.
Qed.

(** The value [escapeLdapFilter] returns holds none of the characters it
    escapes, except the backslashes that introduce its escapes. *)
Lemma escaped_no_raw input c :
  filter_special c = true -> c <> "\"%char ->
  occurs c (escapeLdapFilter input) = false.
Proof.
  intros Hc Hne. induction input as [|a rest IH]; simpl; [reflexivity|].
  destruct (filter_special a) eqn:Ha.
  - rewrite occurs_app, IH, (escape_char_clean a c Ha Hc Hne). reflexivity.
  - simpl. rewrite IH, orb_false_r. apply Ascii.eqb_neq. congruence.
Qed.

(** The dollar sign is never escaped and never produced by an escape. *)
Lemma escaped_dollar input :
  occurs "$" (escapeLdapFilter input) = occurs "$" input.
Proof.
  induction input as [|a rest IH]; simpl; [reflexivity|].
  destruct (filter_special a) eqn:Ha.
  - rewrite occurs_app, IH.
    destruct (special_cases a Ha) as [->|[->|[->|[->|[->|[->| ->]]]]]]; reflexivity.
  - simpl. rewrite IH. reflexivity.
Qed.

(** A replacement text without a dollar sign is inserted as it is. *)
Lemma getSubstitution_plain matched before after replacement :
  occurs "$" replacement = false ->
  getSubstitution matched before after replacement = replacement.
Proof.
  induction replacement as [|c tl IH]; cbn [getSubstitution occurs]; [reflexivity|].
  intros H. apply orb_false_iff in H as [Hc Htl].
  rewrite Ascii.eqb_sym, Hc, (IH Htl). reflexivity.
Qed.

(** With the default template, a username without a dollar sign is put in
    the filter escaped, and nothing else is. *)
Lemma build_filter_plain username :
  occurs "$" username = false ->
  build_filter "(uid={{username}})" username = "(uid=" ++ escapeLdapFilter username ++ ")".
Proof.
  intros H. unfold build_filter, replace_all. cbn.
  rewrite getSubstitution_plain by (rewrite escaped_dollar; exact H).
  reflexivity.
Qed.

Example escape_star : escapeLdapFilter "user*name" = "user\2aname".
Proof. reflexivity. Qed.

Example filter_jdoe : build_filter "(uid={{username}})" "jdoe" = "(uid=jdoe)".
Proof. reflexivity. Qed.

(** C1.  The username is escaped, but it is then handed to
    [String.prototype.replace] as a replacement text, in which a dollar
    sign followed by a quote stands for the part of the template after
    the placeholder: the filter built for such a username holds a raw
    closing parenthesis where the escaped username should be. *)
Theorem build_filter_dollar_quote :
  escapeLdapFilter "$'" = "$'"
  /\ build_filter "(uid={{username}})" "$'" = "(uid=))"
  /\ build_filter "(uid={{username}})" "$'" <> "(uid=" ++ escapeLdapFilter "$'" ++ ")".
Proof. split; [reflexivity | split; [reflexivity | discriminate]]. Qed.

(** ** Step 8: attribute extraction *)

Lemma extractStringArrayAttribute_string entry attribute s :
  Ldapts.get entry attribute = JString s ->
  extractStringArrayAttribute entry attribute = Some [s].
Proof. unfold extractStringArrayAttribute. intros ->. reflexivity. Qed.

(** The unique id: the string itself, or the first element of an array
    when that is a string. *)
Lemma extractStringAttribute_cases entry attribute :
  extractStringAttribute entry attribute =
    match Ldapts.get entry attribute with
    | JString s => Some s
    | JArray (JString s :: _) => Some s
    | _ => None
    end.
Proof.
  unfold extractStringAttribute.
  destruct (Ldapts.get entry attribute) as [| | | | |b|[|[] ?]]; reflexivity.
Qed.

Lemma set_property_lookup name value result a :
  set_property name value result !! a =
    if decide (a = name)
    then if String.eqb a "__proto__" then result !! a else Some value
    else result !! a.
Proof.
  unfold set_property. destruct (decide (a = name)) as [->|Hne].
  - destruct (String.eqb name "__proto__"); [reflexivity | apply lookup_insert_eq].
  - destruct (String.eqb name "__proto__");
      [reflexivity | apply lookup_insert_ne; congruence].
Qed.

Lemma extract_step_lookup entry result attr a :
  extract_step entry result attr !! a =
    if decide (a = attr) then written entry a (result !! a) else result !! a.
Proof.
  unfold extract_step, written. destruct (decide (a = attr)) as [->|Hne].
  - destruct (Ldapts.get entry attr); cbn [stored_value from_option];
      rewrite ?set_property_lookup, ?decide_True by reflexivity;
      destruct (String.eqb attr "__proto__"); reflexivity.
  - destruct (Ldapts.get entry attr); cbn [stored_value from_option];
      rewrite ?set_property_lookup, ?decide_False by exact Hne; reflexivity.
Qed.

Lemma written_twice entry a before :
  written entry a (written entry a before) = written entry a before.
Proof.
  unfold written. destruct (String.eqb a "__proto__"); [reflexivity|].
  destruct (stored_value _); reflexivity.
Qed.

(** The loop of [extractAllAttributes], started from any object. *)
Lemma extract_loop_lookup entry attributes result a :
  fold_left (extract_step entry) attributes result !! a =
    if decide (a ∈ attributes) then written entry a (result !! a) else result !! a.
Proof.
  revert result. induction attributes as [|attr rest IH]; intros result; simpl.
  - destruct (decide (a ∈ [])) as [H|_]; [inversion H | reflexivity].
  - rewrite IH, extract_step_lookup.
    destruct (decide (a = attr)) as [->|Hne].
    + rewrite (decide_True (P := attr ∈ attr :: rest)) by (apply elem_of_cons; auto).
      destruct (decide (attr ∈ rest)); [apply written_twice | reflexivity].
    + destruct (decide (a ∈ rest)) as [Hin|Hout].
      * rewrite (decide_True (P := a ∈ attr :: rest)) by (apply elem_of_cons; auto).
        reflexivity.
      * rewrite (decide_False (P := a ∈ attr :: rest))
          by (rewrite elem_of_cons; tauto).
        reflexivity.
Qed.

(** A requested name holds the stored form of what the entry has for it,
    the name __proto__ apart, which is never set; no other name is set. *)
Lemma extractAllAttributes_lookup entry attributes a :
  extractAllAttributes entry attributes !! a =
    if decide (a ∈ attributes)
    then if String.eqb a "__proto__" then None else stored_value (Ldapts.get entry a)
    else None.
Proof.
  unfold extractAllAttributes. rewrite extract_loop_lookup, lookup_empty.
  destruct (decide _); [|reflexivity]. unfold written.
  destruct (String.eqb a "__proto__"); [reflexivity|].
  destruct (stored_value _); reflexivity.
Qed.

(** ** Step 2: the service bind *)

Lemma truthy_some o : truthy o = true -> o = Some (default "" o) /\ default "" o <> "".
Proof. destruct o as [[|]|]; simpl; intros H; try discriminate H; split; congruence. Qed.

(** C10.  A bind on the first client is made only when the configuration
    holds both a bind identity and its credentials.  When either is not
    set the call goes from the construction of the client straight to
    the search, on that unbound client, and nothing is raised on the
    way. *)
Theorem service_bind_needs_both d username password config :
  (forall dn' pw' reply,
      In (Bind 0 dn' pw' reply) (snd (run_authenticate d username password config)) ->
      bindDN config = Some dn' /\ bindCredentials config = Some pw')
  /\ (bindDN config = None \/ bindCredentials config = None ->
      exists reply rest,
        snd (run_authenticate d username password config) =
          NewClient 0 (baseClientOptions config)
          :: LogInfo ("Searching for user in " ++ searchBase config ++ " with filter: "
                      ++ build_filter (searchFilter config) username)
          :: Search 0 (searchBase config) (search_options username config) reply
          :: rest).
Proof.
  split.
  - auth_paths; intros dn' pw' reply H; in_trace H.
    all: injection H as <- <- <-.
    all: apply andb_prop in service as [Hdn Hpw].
    all: apply truthy_some in Hdn as [Hdn _], Hpw as [Hpw _]; auto.
  - intros Hnone.
    assert (truthy (bindDN config) && truthy (bindCredentials config) = false) as Hskip
      by (destruct Hnone as [-> | ->]; [reflexivity | apply andb_false_r]).
    auth_paths; try congruence; eauto.
Qed.

(** The configuration of the anonymous test: nothing is bound before the
    search. *)
Lemma service_bind_needs_both_witness :
  (bindDN halfConfig = None \/ bindCredentials halfConfig = None)
  /\ exists reply rest,
       snd (run_authenticate (mock accept_all (inr [jdoe]) None) "jdoe" "pass" halfConfig) =
         NewClient 0 (baseClientOptions halfConfig)
         :: LogInfo ("Searching for user in " ++ searchBase halfConfig ++ " with filter: "
                     ++ build_filter (searchFilter halfConfig) "jdoe")
         :: Search 0 (searchBase halfConfig) (search_options "jdoe" halfConfig) reply
         :: rest.
Proof.
  split; [right; reflexivity|].
  apply (service_bind_needs_both (mock accept_all (inr [jdoe]) None) "jdoe" "pass" halfConfig).
  right; reflexivity.
Defined.

(** C3, as the code has it.  When the service bind is rejected, the call
    is rejected with the very error the directory gave, unchanged; no
    search is made, no second client is constructed and the first one is
    released.  The handler answers it, like every failure, with status
    401 and the name AuthenticationError. *)
Theorem service_bind_failure_propagates d username password config dn' pw' e :
  In (Bind 0 dn' pw' (Some e)) (snd (run_authenticate d username password config)) ->
  fst (run_authenticate d username password config) = Throw e
  /\ (forall c base options reply,
        ~ In (Search c base options reply) (snd (run_authenticate d username password config)))
  /\ (forall o, ~ In (NewClient 1 o) (snd (run_authenticate d username password config)))
  /\ released 0 (snd (run_authenticate d username password config)) = true
  /\ status (auth_failure_response e) = 401
  /\ error_name (auth_failure_response e) = "AuthenticationError".
Proof.
  auth_paths; intros H; in_trace H.
  all: injection H as <- <- <-.
  all: split; [reflexivity|].
  all: split; [intros c base options reply H; in_trace H|].
  all: split; [intros o H; in_trace H|].
  all: repeat split; reflexivity.
Qed.

Lemma service_bind_failure_propagates_witness :
  In (Bind 0 "cn=service,dc=example,dc=org" "service-password" (Some socket_closed))
     (snd (run_authenticate (mock (reject_service socket_closed) (inr [jdoe]) None)
             "jdoe" "correct-password" defaultConfig))
  /\ fst (run_authenticate (mock (reject_service socket_closed) (inr [jdoe]) None)
            "jdoe" "correct-password" defaultConfig) = Throw socket_closed.
Proof.
  assert (In (Bind 0 "cn=service,dc=example,dc=org" "service-password" (Some socket_closed))
            (snd (run_authenticate (mock (reject_service socket_closed) (inr [jdoe]) None)
                    "jdoe" "correct-password" defaultConfig))) as H
    by (right; right; left; reflexivity).
  split; [exact H|].
  exact (proj1 (service_bind_failure_propagates _ _ _ _ _ _ _ H)).
Defined.

(** C3, as stated, fails: a rejected service bind and a rejected user
    bind can leave the caller with the same error, and the handler with
    the same response.  Here the directory rejects the service account
    with an [Error] whose message is the one the module itself uses for
    a rejected user. *)
Lemma service_bind_failure_not_distinct :
  let misconfigured :=
    run_authenticate
      (mock (reject_service (new_Error "Invalid credentials for user 'jdoe'")) (inr [jdoe]) None)
      "jdoe" "wrong-password" defaultConfig in
  let wrong_password :=
    run_authenticate
      (mock (reject_user (new_Error "Invalid credentials")) (inr [jdoe]) None)
      "jdoe" "wrong-password" defaultConfig in
  (exists e, In (Bind 0 "cn=service,dc=example,dc=org" "service-password" (Some e))
               (snd misconfigured))
  /\ (exists e, In (Bind 1 "uid=jdoe,ou=users,dc=example,dc=org" "wrong-password" (Some e))
                  (snd wrong_password))
  /\ fst misconfigured = fst wrong_password
  /\ (forall e e', fst misconfigured = Throw e -> fst wrong_password = Throw e' ->
        auth_failure_response e = auth_failure_response e').
Proof.
  cbv zeta. split; [|split; [|split]].
  - eexists. right; right; left; reflexivity.
  - eexists. do 7 right. left. reflexivity.
  - reflexivity.
  - intros e e' H H'. injection H as <-. injection H' as <-. reflexivity.
Qed.

(** ** Steps 4 and 5: no match *)

(** C4. When the search yields no entry, the call fails with the
    user-not-found error; only one client was ever constructed, and the
    only bind the directory saw, if any, is the service bind on it: no
    bind with the matched identity and the submitted password occurs. *)
Theorem no_match_user_not_found d username password config c base options :
  In (Search c base options (inr [])) (snd (run_authenticate d username password config)) ->
  fst (run_authenticate d username password config) = Throw (not_found_error username)
  /\ (forall c' o, In (NewClient c' o) (snd (run_authenticate d username password config)) ->
      c' = 0)
  /\ (forall c' dn' pw' reply,
      In (Bind c' dn' pw' reply) (snd (run_authenticate d username password config)) ->
      c' = 0 /\ bindDN config = Some dn' /\ bindCredentials config = Some pw').
Proof.
  auth_paths; intros H; in_trace H.
  all: (split; [reflexivity|]).
  all: split; [intros c' o H'; in_trace H'; congruence|].
  all: intros c' dn' pw' reply H'; in_trace H'.
  all: injection H' as <- <- <- <-.
  all: destruct (bindDN config) as [[|]|], (bindCredentials config) as [[|]|];
    try discriminate; auto.
Qed.

Lemma no_match_user_not_found_witness :
  In (Search 0 "ou=users,dc=example,dc=org" (search_options "unknown" defaultConfig) (inr []))
     (snd (run_authenticate (mock accept_all (inr []) None) "unknown" "pass" defaultConfig))
  /\ fst (run_authenticate (mock accept_all (inr []) None) "unknown" "pass" defaultConfig)
     = Throw (new_Error "User 'unknown' not found in LDAP directory").
Proof.
  assert (In (Search 0 "ou=users,dc=example,dc=org" (search_options "unknown" defaultConfig)
                (inr []))
            (snd (run_authenticate (mock accept_all (inr []) None) "unknown" "pass"
                    defaultConfig))) as H
    by (do 4 right; left; reflexivity).
  split; [exact H|].
  exact (proj1 (no_match_user_not_found _ _ _ _ _ _ _ H)).
Defined.

(** ** Step 4: more than one match *)

(** A single match brings no warning. *)
Lemma single_match_no_warning d username password config c base options entry :
  In (Search c base options (inr [entry]))
     (snd (run_authenticate d username password config)) ->
  warnings (snd (run_authenticate d username password config)) = 0.
Proof.
  auth_paths; intros H; in_trace H; reflexivity.
Qed.

(** C8.  When the search finds more than one entry, the logger receives
    exactly one warning, the call goes on to close the search connection,
    and every later step uses the first entry: the user bind is made with
    its DN and the submitted password, and decides the outcome, which on
    success is the record of the first entry.  The call fails before the
    user bind only when closing the search connection failed. *)
Theorem multiple_matches_first_entry d username password config c base options
    first second more :
  In (Search c base options (inr (first :: second :: more)))
     (snd (run_authenticate d username password config)) ->
  warnings (snd (run_authenticate d username password config)) = 1
  /\ In (LogWarn ("Multiple users found for '" ++ username ++ "', using first result"))
        (snd (run_authenticate d username password config))
  /\ (forall dn' pw' reply,
        In (Bind 1 dn' pw' reply) (snd (run_authenticate d username password config)) ->
        dn' = Ldapts.dn first /\ pw' = password
        /\ fst (run_authenticate d username password config) =
             match reply with
             | None => Normal (user_info username config first)
             | Some _ => Throw (invalid_credentials_error username)
             end)
  /\ ((forall dn' pw' reply,
         ~ In (Bind 1 dn' pw' reply) (snd (run_authenticate d username password config))) ->
      exists e before reply,
        fst (run_authenticate d username password config) = Throw e
        /\ snd (run_authenticate d username password config) =
             (before ++ [Unbind 0 (Some e); Unbind 0 reply])%list).
Proof.
  auth_paths; intros H; in_trace H.
  all: injection H as _ _ _ <- <- <-.
  all: split; [reflexivity|].
  all: split; [here|].
  all: split; [intros dn' pw' reply H; in_trace H;
               injection H as <- <- <-; auto|].
  all: intros Hnone.
  all: try (exfalso;
            match type of Hnone with
            | context [Bind 1 ?a ?b ?r] => apply (Hnone a b r); here
            end).
  all: match goal with
       | |- exists e before reply, Throw ?err = Throw e /\ ?t = _ =>
           let r := final_reply t in
           exists err, (removelast (removelast t)), r; split; reflexivity
       end.
Qed.

(** The test with two entries for jdoe. *)
Lemma multiple_matches_first_entry_witness :
  In (Search 0 "ou=users,dc=example,dc=org" (search_options "jdoe" defaultConfig)
        (inr [jdoe; jdoe2]))
     (snd (run_authenticate (mock accept_all (inr [jdoe; jdoe2]) None) "jdoe" "password"
             defaultConfig))
  /\ warnings (snd (run_authenticate (mock accept_all (inr [jdoe; jdoe2]) None) "jdoe"
                      "password" defaultConfig)) = 1
  /\ fst (run_authenticate (mock accept_all (inr [jdoe; jdoe2]) None) "jdoe" "password"
            defaultConfig) = Normal (user_info "jdoe" defaultConfig jdoe).
Proof.
  assert (In (Search 0 "ou=users,dc=example,dc=org" (search_options "jdoe" defaultConfig)
                (inr [jdoe; jdoe2]))
            (snd (run_authenticate (mock accept_all (inr [jdoe; jdoe2]) None) "jdoe"
                    "password" defaultConfig))) as H
    by (do 4 right; left; reflexivity).
  split; [exact H|].
  destruct (multiple_matches_first_entry _ _ _ _ _ _ _ _ _ _ H) as (Hw & _ & Hb & _).
  split; [exact Hw|].
  apply (Hb "uid=jdoe,ou=users,dc=example,dc=org" "password" None).
  do 8 right; left; reflexivity.
Defined.

(** ** Steps 6 and 7: the user bind *)

(** C5.  When the bind on the second client is rejected, whatever the
    error of the directory, the call is rejected with the error
    "Invalid credentials for user '<username>'", which holds nothing of
    the directory's error; that bind was made for the first entry of the
    search with the submitted password, and the second client is
    released. *)
Theorem rebind_failure_invalid_credentials d username password config dn' pw' e :
  In (Bind 1 dn' pw' (Some e)) (snd (run_authenticate d username password config)) ->
  fst (run_authenticate d username password config)
    = Throw (invalid_credentials_error username)
  /\ (exists entry more,
        In (Search 0 (searchBase config) (search_options username config)
              (inr (entry :: more)))
           (snd (run_authenticate d username password config))
        /\ dn' = Ldapts.dn entry /\ pw' = password)
  /\ (exists reply, In (Unbind 1 reply) (snd (run_authenticate d username password config)))
  /\ released 1 (snd (run_authenticate d username password config)) = true.
Proof.
  auth_paths; intros H; in_trace H.
  all: injection H as <- <- <-.
  all: split; [reflexivity|].
  all: split; [eexists; eexists; split; [here | split; reflexivity]|].
  all: split; [eexists; here | reflexivity].
Qed.

(** The test with a wrong password. *)
Lemma rebind_failure_invalid_credentials_witness :
  In (Bind 1 "uid=jdoe,ou=users,dc=example,dc=org" "wrong-password"
        (Some (new_Error "Invalid credentials")))
     (snd (run_authenticate (mock (reject_user (new_Error "Invalid credentials"))
                               (inr [jdoe]) None)
             "jdoe" "wrong-password" defaultConfig))
  /\ fst (run_authenticate (mock (reject_user (new_Error "Invalid credentials"))
                              (inr [jdoe]) None)
            "jdoe" "wrong-password" defaultConfig)
     = Throw (new_Error "Invalid credentials for user 'jdoe'").
Proof.
  assert (In (Bind 1 "uid=jdoe,ou=users,dc=example,dc=org" "wrong-password"
                (Some (new_Error "Invalid credentials")))
            (snd (run_authenticate (mock (reject_user (new_Error "Invalid credentials"))
                                      (inr [jdoe]) None)
                    "jdoe" "wrong-password" defaultConfig))) as H
    by (do 7 right; left; reflexivity).
  split; [exact H|].
  exact (proj1 (rebind_failure_invalid_credentials _ _ _ _ _ _ _ H)).
Defined.

(** ** Steps 8 and 9: the record *)

(** A record is returned only for the first entry of a search, after the
    bind as that entry with the submitted password was accepted. *)
Lemma authenticate_success d username password config info :
  fst (run_authenticate d username password config) = Normal info ->
  exists entry more,
    In (Search 0 (searchBase config) (search_options username config) (inr (entry :: more)))
       (snd (run_authenticate d username password config))
    /\ In (Bind 1 (Ldapts.dn entry) password None)
          (snd (run_authenticate d username password config))
    /\ info = user_info username config entry.
Proof.
  auth_paths; intros H; try discriminate H.
  all: injection H as <-.
  all: eexists; eexists; split; [here | split; [here | reflexivity]].
Qed.

(** The search of a run is made once: its answer is the one the record is
    built from. *)
Lemma search_once d username password config c base options reply c' base' options' reply' :
  In (Search c base options reply) (snd (run_authenticate d username password config)) ->
  In (Search c' base' options' reply') (snd (run_authenticate d username password config)) ->
  reply = reply'.
Proof.
  auth_paths; intros H H'; in_trace H; in_trace H'.
  all: injection H as _ _ _ <-; injection H' as _ _ _ <-; reflexivity.
Qed.

(** C2.  When the search found exactly one entry and the bind on the
    second client was accepted, the call returns a record whose [dn] is
    the DN of the entry and whose [uid] is the username attribute of the
    entry: the string itself, or the first element of an array when that
    is a string, and the submitted username in every other case. *)
Theorem single_match_record d username password config c base options entry dn' pw' :
  In (Search c base options (inr [entry]))
     (snd (run_authenticate d username password config)) ->
  In (Bind 1 dn' pw' None) (snd (run_authenticate d username password config)) ->
  exists info,
    fst (run_authenticate d username password config) = Normal info
    /\ dn info = Ldapts.dn entry
    /\ uid info =
         match Ldapts.get entry (usernameAttribute config) with
         | JString s => s
         | JArray (JString s :: _) => s
         | _ => username
         end.
Proof.
  auth_paths; intros H H'; in_trace H; in_trace H'.
  all: injection H as _ _ _ <-.
  all: eexists; split; [reflexivity|]; split; [reflexivity|].
  all: unfold user_info; cbn [uid]; rewrite extractStringAttribute_cases.
  all: destruct (Ldapts.get _ _) as [| | | | |b|[|[] ?]]; reflexivity.
Qed.

(** The test with a valid user. *)
Lemma single_match_record_witness :
  exists info,
    fst (run_authenticate (mock accept_all (inr [jdoe]) None) "jdoe" "correct-password"
           defaultConfig) = Normal info
    /\ dn info = "uid=jdoe,ou=users,dc=example,dc=org"
    /\ uid info = "jdoe".
Proof.
  apply (single_match_record (mock accept_all (inr [jdoe]) None) "jdoe" "correct-password"
           defaultConfig 0 "ou=users,dc=example,dc=org"
           (search_options "jdoe" defaultConfig) jdoe
           "uid=jdoe,ou=users,dc=example,dc=org" "correct-password").
  - do 4 right; left; reflexivity.
  - do 7 right; left; reflexivity.
Defined.

(** C9.  When the entry the record is built from has a single string for
    [memberOf], the [memberOf] of the record is the one-element list of
    that string. *)
Theorem memberOf_single_string d username password config c base options entry more info s :
  fst (run_authenticate d username password config) = Normal info ->
  In (Search c base options (inr (entry :: more)))
     (snd (run_authenticate d username password config)) ->
  Ldapts.get entry "memberOf" = JString s ->
  memberOf info = Some [s].
Proof.
  intros Hok Hfound Hs.
  destruct (authenticate_success _ _ _ _ _ Hok) as (entry' & more' & Hfound' & _ & ->).
  pose proof (search_once _ _ _ _ _ _ _ _ _ _ _ _ Hfound Hfound') as Heq.
  injection Heq as <- _.
  cbn [memberOf user_info]. apply extractStringArrayAttribute_string, Hs.
Qed.

Lemma memberOf_single_string_witness :
  fst (run_authenticate (mock accept_all (inr [solo]) None) "solo" "pass" defaultConfig)
  = Normal (user_info "solo" defaultConfig solo)
  /\ Ldapts.get solo "memberOf" = JString "cn=ops,ou=groups,dc=example,dc=org"
  /\ memberOf (user_info "solo" defaultConfig solo)
     = Some ["cn=ops,ou=groups,dc=example,dc=org"].
Proof.
  split; [reflexivity|]. split; [reflexivity|].
  apply (memberOf_single_string (mock accept_all (inr [solo]) None) "solo" "pass"
           defaultConfig 0 "ou=users,dc=example,dc=org"
           (search_options "solo" defaultConfig) solo []).
  - reflexivity.
  - do 4 right; left; reflexivity.
  - reflexivity.
Defined.

(** The scenario of the specification: one entry, both binds accepted. *)
Example scenario_jdoe :
  let config :=
    {| url := "ldaps://d:636"; bindDN := Some "svc"; bindCredentials := Some "p";
       searchBase := "ou=u,dc=x"; usernameAttribute := "uid";
       searchFilter := "(uid={{username}})"; userAttributes := ["mail"];
       tls := {| rejectUnauthorized := true |} |} in
  let entry :=
    {| Ldapts.dn := "uid=jdoe,ou=u,dc=x";
       Ldapts.attrs := list_to_map [("uid", JString "jdoe"); ("mail", JString "jdoe@x.com")] |} in
  fst (run_authenticate (mock accept_all (inr [entry]) None) "jdoe" "secret" config)
  = Normal {| dn := "uid=jdoe,ou=u,dc=x"; uid := "jdoe"; displayName := None;
              email := Some "jdoe@x.com"; memberOf := None;
              attributes := {["mail" := AttrString "jdoe@x.com"]} |}.
Proof. vm_compute. reflexivity. Qed.

(** C7, as the code has it.  In the record of a successful call, a
    requested attribute holds the string the entry has for it, or, when
    the entry has an array of whatever elements, the list of the strings
    among them; it is present exactly when the entry has a string or an
    array for it.  Values of every other shape are left out without an
    error.  The one name that is never present is __proto__, which an
    assignment cannot write as a key. *)
Theorem raw_attributes_presence d username password config c base options entry more
    info a :
  fst (run_authenticate d username password config) = Normal info ->
  In (Search c base options (inr (entry :: more)))
     (snd (run_authenticate d username password config)) ->
  In a (userAttributes config) ->
  attributes info !! a
  = (if String.eqb a "__proto__" then None else stored_value (Ldapts.get entry a))
  /\ (is_Some (attributes info !! a) <->
      a <> "__proto__"
      /\ ((exists s, Ldapts.get entry a = JString s)
          \/ (exists elems, Ldapts.get entry a = JArray elems))).
Proof.
  intros Hok Hfound Hin.
  destruct (authenticate_success _ _ _ _ _ Hok) as (entry' & more' & Hfound' & _ & ->).
  pose proof (search_once _ _ _ _ _ _ _ _ _ _ _ _ Hfound Hfound') as Heq.
  injection Heq as <- _.
  cbn [attributes user_info]. rewrite extractAllAttributes_lookup.
  rewrite decide_True by (apply list_elem_of_In; exact Hin).
  split; [reflexivity|].
  destruct (String.eqb a "__proto__") eqn:Hname.
  - apply String.eqb_eq in Hname. split.
    + intros [? H]; discriminate H.
    + intros [Hne _]. contradiction.
  - apply String.eqb_neq in Hname.
    destruct (Ldapts.get entry a); simpl; split;
      try (intros [? H]; discriminate H);
      try (intros [_ [[? H]|[? H]]]; discriminate H);
      eauto.
Qed.

Lemma raw_attributes_presence_witness :
  fst (run_authenticate (mock accept_all (inr [jdoe]) None) "jdoe" "correct-password"
         defaultConfig) = Normal (user_info "jdoe" defaultConfig jdoe)
  /\ In "mail" (userAttributes defaultConfig)
  /\ attributes (user_info "jdoe" defaultConfig jdoe) !! "mail"
     = Some (AttrString "jdoe@example.com").
Proof.
  split; [reflexivity|]. split; [left; reflexivity|].
  apply (raw_attributes_presence (mock accept_all (inr [jdoe]) None) "jdoe"
           "correct-password" defaultConfig 0 "ou=users,dc=example,dc=org"
           (search_options "jdoe" defaultConfig) jdoe [] _ "mail").
  - reflexivity.
  - do 4 right; left; reflexivity.
  - left; reflexivity.
Defined.

(** C7, as stated, fails: an attribute the directory returned as an array
    of binary values, which holds no string, is present in the map, with
    the empty list. *)
Lemma binary_array_attribute_kept :
  exists info,
    fst (run_authenticate (mock accept_all (inr [solo]) None) "solo" "pass" photoConfig)
      = Normal info
    /\ In "jpegPhoto" (userAttributes photoConfig)
    /\ Ldapts.get solo "jpegPhoto" = JArray [JBuffer "p1"; JBuffer "p2"]
    /\ attributes info !! "jpegPhoto" = Some (AttrStrings []).
Proof.
  eexists. split; [reflexivity|].
  split; [right; left; reflexivity|].
  split; vm_compute; reflexivity.
Qed.

(** ** Resource discipline *)

(** On every path each client that was constructed ends released: the
    last call made on it is an unbind. *)
Lemma clients_released d username password config c o :
  In (NewClient c o) (snd (run_authenticate d username password config)) ->
  released c (snd (run_authenticate d username password config)) = true.
Proof.
  auth_paths; intros H; in_trace H; injection H as <- _; reflexivity.
Qed.

(** C6.  The two releases in the finally blocks swallow their failures,
    but the close of the search connection before the user bind is
    awaited without that catch.  Here the directory accepts both binds,
    finds the user and rejects every unbind: the call is rejected with
    the error of the close, so a failure of a release is passed on to the
    caller. *)
Lemma close_failure_escalates :
  let out :=
    run_authenticate (mock accept_all (inr [jdoe]) (Some socket_closed))
      "jdoe" "correct-password" defaultConfig in
  fst out = Throw socket_closed
  /\ List.filter failed (snd out)
     = [Unbind 0 (Some socket_closed); Unbind 0 (Some socket_closed)].
Proof. split; reflexivity. Qed.

(** When the releases on the way out are all that fails, the call still
    succeeds. *)
Example final_release_failures_swallowed :
  let out :=
    run_authenticate
      {| bind_reply := fun _ _ _ _ => None;
         search_reply := fun _ _ _ _ => inr [jdoe];
         unbind_reply := fun t _ =>
           if existsb (on_client 1) t then Some socket_closed else None |}
      "jdoe" "correct-password" defaultConfig in
  fst out = Normal (user_info "jdoe" defaultConfig jdoe)
  /\ List.filter failed (snd out)
     = [Unbind 1 (Some socket_closed); Unbind 0 (Some socket_closed)].
Proof. split; reflexivity. Qed.

(** * Further properties *)

(** ** escapeLdapFilter *)

Lemma special_not_plain c : filter_special c = false -> c <> "\"%char.
Proof. intros H ->. discriminate H. Qed.

(** Every escape decodes to the character it was made from. *)
Lemma decode_escape_char a rest decoded :
  filter_special a = true ->
  rfc4515_decode rest = Some decoded ->
  rfc4515_decode (escape_char a ++ rest) = Some (String a decoded).
Proof.
  intros Ha Hrest.
  destruct (special_cases a Ha) as [->|[->|[->|[->|[->|[->| ->]]]]]];
    unfold escape_char, padStart, toString16; simpl;
    change ("" ++ rest) with rest; rewrite Hrest; reflexivity.
Qed.

Lemma decode_escaped input : rfc4515_decode (escapeLdapFilter input) = Some input.
Proof.
  induction input as [|a rest IH]; [reflexivity|].
  cbn [escapeLdapFilter]. destruct (filter_special a) eqn:Ha.
  - apply decode_escape_char; assumption.
  - cbn [rfc4515_decode].
    rewrite (proj2 (Ascii.eqb_neq a "\"%char) (special_not_plain a Ha)), IH.
    reflexivity.
Qed.

(** X1.  The value built for a username decodes, by the rules of RFC 4515, to
    that username: the directory compares against exactly what was
    submitted. *)
Theorem escape_round_trip input :
  rfc4515_decode (escapeLdapFilter input) = Some input.
Proof. apply decode_escaped. Qed.

(** X2.  Two different usernames never give the same escaped value. *)
Theorem escapeLdapFilter_injective input1 input2 :
  escapeLdapFilter input1 = escapeLdapFilter input2 -> input1 = input2.
Proof.
  intros H. pose proof (decode_escaped input1) as H1.
  rewrite H, decode_escaped in H1. congruence.
Qed.

Lemma escapeLdapFilter_injective_witness :
  escapeLdapFilter "a*" = escapeLdapFilter "a*" /\ "a*" = "a*".
Proof.
  split; [reflexivity|].
  apply (escapeLdapFilter_injective "a*" "a*"). reflexivity.
Defined.

Lemma length_app s1 s2 :
  String.length (s1 ++ s2) = String.length s1 + String.length s2.
Proof. induction s1 as [|a s1 IH]; simpl; [reflexivity|]. rewrite IH. reflexivity. Qed.

Lemma escape_char_length a : filter_special a = true -> String.length (escape_char a) = 3.
Proof.
  intros Ha.
  destruct (special_cases a Ha) as [->|[->|[->|[->|[->|[->| ->]]]]]]; reflexivity.
Qed.

(** Each escaped character takes three characters in place of one, and
    nothing else changes the length. *)
Lemma escaped_length input :
  String.length (escapeLdapFilter input)
  = String.length input + 2 * count_special input.
Proof.
  induction input as [|a rest IH]; [reflexivity|].
  cbn [escapeLdapFilter count_special String.length].
  destruct (filter_special a) eqn:Ha.
  - rewrite length_app, escape_char_length, IH by exact Ha. lia.
  - cbn [String.length]. rewrite IH. lia.
Qed.

Lemma escape_clean input : count_special input = 0 -> escapeLdapFilter input = input.
Proof.
  induction input as [|a rest IH]; [reflexivity|].
  cbn [escapeLdapFilter count_special].
  destruct (filter_special a); [discriminate|].
  intros H. rewrite (IH H). reflexivity.
Qed.

(** X3.  A username comes out unchanged exactly when it holds none of the
    escaped characters. *)
Theorem escape_unchanged_iff input :
  escapeLdapFilter input = input <-> count_special input = 0.
Proof.
  split; [|apply escape_clean].
  intros H. pose proof (escaped_length input) as Hlen.
  rewrite H in Hlen. lia.
Qed.

(** ** The filter template *)

Lemma replace_without_match replacement before s :
  contains "{{username}}" s = false ->
  replace_from "{{username}}" replacement before 0 s = s.
Proof.
  revert before. induction s as [|c s IH]; intros before H; [reflexivity|].
  cbn [contains] in H. apply orb_false_iff in H as [Hhere Hlater].
  cbn [replace_from]. rewrite Hhere, (IH _ Hlater). reflexivity.
Qed.

(** X4.  A template without the placeholder is the filter, for every
    username: the search then does not depend on who signs in. *)
Theorem build_filter_no_placeholder searchFilter username :
  contains "{{username}}" searchFilter = false ->
  build_filter searchFilter username = searchFilter.
Proof. intros H. apply replace_without_match, H. Qed.

Lemma build_filter_no_placeholder_witness :
  contains "{{username}}" "(objectClass=person)" = false
  /\ build_filter "(objectClass=person)" "jdoe" = "(objectClass=person)".
Proof.
  split; [reflexivity|].
  apply (build_filter_no_placeholder "(objectClass=person)" "jdoe"). reflexivity.
Defined.

Lemma prefix_placeholder_other c s :
  c <> "{"%char -> String.prefix "{{username}}" (String c s) = false.
Proof.
  intros Hne. cbn [String.prefix].
  destruct (ascii_dec "{" c) as [Heq|_]; [congruence | reflexivity].
Qed.

Lemma prefix_empty s : String.prefix "" s = true.
Proof. destruct s; reflexivity. Qed.

Lemma append_nil s : "" ++ s = s.
Proof. reflexivity. Qed.

Lemma append_cons c s1 s2 : String c s1 ++ s2 = String c (s1 ++ s2).
Proof. reflexivity. Qed.

(** X5.  With a username that holds no dollar sign, a template made of a part
    without an opening brace, the placeholder, and a part without another
    placeholder gives those two parts around the escaped username. *)
Theorem build_filter_single_placeholder before after username :
  occurs "$" username = false ->
  occurs "{" before = false ->
  contains "{{username}}" after = false ->
  build_filter (before ++ "{{username}}" ++ after) username
  = before ++ escapeLdapFilter username ++ after.
Proof.
  intros Hdollar Hbrace Hafter. unfold build_filter, replace_all.
  enough (forall passed,
             replace_from "{{username}}" (escapeLdapFilter username) passed 0
               (before ++ "{{username}}" ++ after)
             = before ++ escapeLdapFilter username ++ after) as H by apply H.
  induction before as [|c rest IH]; intros passed.
  - rewrite !append_cons, !append_nil. cbn. rewrite prefix_empty.
    rewrite getSubstitution_plain by (rewrite escaped_dollar; exact Hdollar).
    rewrite replace_without_match by exact Hafter. reflexivity.
  - cbn [occurs] in Hbrace. apply orb_false_iff in Hbrace as [Hc Hrest].
    rewrite !(append_cons c). cbn [replace_from].
    rewrite prefix_placeholder_other
      by (intros ->; rewrite Ascii.eqb_refl in Hc; discriminate Hc).
    rewrite (IH Hrest). reflexivity.
Qed.

Lemma build_filter_single_placeholder_witness :
  occurs "$" "j(doe" = false
  /\ occurs "{" "(&(objectClass=person)(sAMAccountName=" = false
  /\ contains "{{username}}" "))" = false
  /\ build_filter "(&(objectClass=person)(sAMAccountName={{username}}))" "j(doe"
     = "(&(objectClass=person)(sAMAccountName=j\28doe))".
Proof.
  split; [reflexivity|]. split; [reflexivity|]. split; [reflexivity|].
  apply (build_filter_single_placeholder "(&(objectClass=person)(sAMAccountName=" "))"
           "j(doe"); reflexivity.
Defined.

(** ** authenticateWithLdap: the calls it makes *)

Lemma search_event_shape d username password config c base options reply :
  In (Search c base options reply) (snd (run_authenticate d username password config)) ->
  c = 0 /\ base = searchBase config /\ options = search_options username config.
Proof.
  auth_paths; intros H; in_trace H.
  all: injection H as <- <- <- _; repeat split; reflexivity.
Qed.

Lemma new_client_options d username password config c o :
  In (NewClient c o) (snd (run_authenticate d username password config)) ->
  o = baseClientOptions config.
Proof.
  auth_paths; intros H; in_trace H.
  all: injection H as _ <-; reflexivity.
Qed.

(** X6.  Every search of a call is made on the first client, under the
    configured base over the whole subtree, with the filter built from
    the template and asking for the username attribute followed by the
    configured attributes; the filter was written to the log before. *)
Theorem search_request d username password config c base options reply :
  In (Search c base options reply) (snd (run_authenticate d username password config)) ->
  c = 0 /\ base = searchBase config
  /\ Ldapts.filter options = build_filter (searchFilter config) username
  /\ Ldapts.attributes options = usernameAttribute config :: userAttributes config
  /\ Ldapts.scope options = "sub"
  /\ In (LogInfo ("Searching for user in " ++ base ++ " with filter: "
                  ++ Ldapts.filter options))
        (snd (run_authenticate d username password config)).
Proof.
  auth_paths; intros H; in_trace H.
  all: injection H as <- <- <- _.
  all: repeat (split; [reflexivity|]).
  all: here.
Qed.

Lemma search_request_witness :
  In (Search 0 "ou=users,dc=example,dc=org" (search_options "jdoe" defaultConfig) (inr [jdoe]))
     (snd (run_authenticate (mock accept_all (inr [jdoe]) None) "jdoe" "pass" defaultConfig))
  /\ Ldapts.attributes (search_options "jdoe" defaultConfig)
     = ["uid"; "mail"; "displayName"; "memberOf"].
Proof.
  assert (In (Search 0 "ou=users,dc=example,dc=org" (search_options "jdoe" defaultConfig)
                (inr [jdoe]))
            (snd (run_authenticate (mock accept_all (inr [jdoe]) None) "jdoe" "pass"
                    defaultConfig))) as H
    by (do 4 right; left; reflexivity).
  split; [exact H|].
  exact (proj1 (proj2 (proj2 (proj2 (search_request _ _ _ _ _ _ _ _ H))))).
Defined.

(** X7.  The two identities never share a connection: at most two clients are
    constructed, each is bound at most once, the search is never made on
    the client of the user, and once a client was unbound no bind or
    search is made on it again. *)
Theorem connection_discipline d username password config :
  List.length (List.filter is_new_client (snd (run_authenticate d username password config)))
    <= 2
  /\ (forall c,
        List.length (List.filter (bind_on c)
                       (snd (run_authenticate d username password config))) <= 1)
  /\ (forall base options reply,
        ~ In (Search 1 base options reply)
            (snd (run_authenticate d username password config)))
  /\ quiet_after_release (snd (run_authenticate d username password config)) = true.
Proof.
  auth_paths.
  all: split; [cbn; lia|].
  all: split; [intros [|[|c]]; cbn; lia|].
  all: split; [intros base options reply H; in_trace H | reflexivity].
Qed.

(** X8.  When the search itself is rejected, the call is rejected with the
    error of the directory, unchanged; no second client is constructed
    and the first one is released. *)
Theorem search_failure_propagates d username password config c base options e :
  In (Search c base options (inl e)) (snd (run_authenticate d username password config)) ->
  fst (run_authenticate d username password config) = Throw e
  /\ (forall o, ~ In (NewClient 1 o) (snd (run_authenticate d username password config)))
  /\ released 0 (snd (run_authenticate d username password config)) = true.
Proof.
  auth_paths; intros H; in_trace H.
  all: injection H as _ _ _ <-.
  all: split; [reflexivity|].
  all: split; [intros o H; in_trace H | reflexivity].
Qed.

Lemma search_failure_propagates_witness :
  In (Search 0 "ou=users,dc=example,dc=org" (search_options "jdoe" defaultConfig)
        (inl socket_closed))
     (snd (run_authenticate (mock accept_all (inl socket_closed) None) "jdoe" "pass"
             defaultConfig))
  /\ fst (run_authenticate (mock accept_all (inl socket_closed) None) "jdoe" "pass"
            defaultConfig) = Throw socket_closed.
Proof.
  assert (In (Search 0 "ou=users,dc=example,dc=org" (search_options "jdoe" defaultConfig)
                (inl socket_closed))
            (snd (run_authenticate (mock accept_all (inl socket_closed) None) "jdoe" "pass"
                    defaultConfig))) as H
    by (do 4 right; left; reflexivity).
  split; [exact H|].
  exact (proj1 (search_failure_propagates _ _ _ _ _ _ _ _ H)).
Defined.

(** X9.  A record is returned only after every step before it went well: the
    service bind when one is configured, a search that found an entry, the
    close of the search connection, and the bind as that entry with the
    submitted password, whose success was logged. *)
Theorem record_after_every_step d username password config info :
  fst (run_authenticate d username password config) = Normal info ->
  (truthy (bindDN config) && truthy (bindCredentials config) = true ->
   In (Bind 0 (default "" (bindDN config)) (default "" (bindCredentials config)) None)
      (snd (run_authenticate d username password config)))
  /\ exists entry more,
       In (Search 0 (searchBase config) (search_options username config)
             (inr (entry :: more)))
          (snd (run_authenticate d username password config))
       /\ In (Unbind 0 None) (snd (run_authenticate d username password config))
       /\ In (Bind 1 (Ldapts.dn entry) password None)
             (snd (run_authenticate d username password config))
       /\ In (LogInfo ("User '" ++ username ++ "' authenticated successfully"))
             (snd (run_authenticate d username password config))
       /\ info = user_info username config entry.
Proof.
  auth_paths; intros H; try discriminate H.
  all: injection H as <-.
  all: split; [intros Hs; first [discriminate Hs | here]|].
  all: eexists; eexists.
  all: split; [here|]; split; [here|]; split; [here|]; split; [here | reflexivity].
Qed.

Lemma record_after_every_step_witness :
  fst (run_authenticate (mock accept_all (inr [jdoe]) None) "jdoe" "correct-password"
         defaultConfig) = Normal (user_info "jdoe" defaultConfig jdoe)
  /\ In (Bind 0 "cn=service,dc=example,dc=org" "service-password" None)
        (snd (run_authenticate (mock accept_all (inr [jdoe]) None) "jdoe" "correct-password"
                defaultConfig)).
Proof.
  split; [reflexivity|].
  apply (record_after_every_step (mock accept_all (inr [jdoe]) None) "jdoe"
           "correct-password" defaultConfig (user_info "jdoe" defaultConfig jdoe));
    reflexivity.
Defined.

Lemma failure_origin_run d username password config e :
  fst (run_authenticate d username password config) = Throw e ->
  e = not_found_error username
  \/ e = invalid_credentials_error username
  \/ exists ev,
       In ev (snd (run_authenticate d username password config))
       /\ on_client 0 ev = true /\ call_error ev = Some e.
Proof.
  auth_paths; intros H; try discriminate H.
  all: injection H as <-.
  all: try (left; reflexivity).
  all: try (right; left; reflexivity).
  all: right; right.
  all: match goal with
       | |- exists ev, In ev ?t /\ _ /\ _ = Some ?e =>
           match t with
           | context [Bind 0 ?a ?b (Some e)] => exists (Bind 0 a b (Some e))
           | context [Search 0 ?a ?b (inl e)] => exists (Search 0 a b (inl e))
           | context [Unbind 0 (Some e)] => exists (Unbind 0 (Some e))
           end
       end.
  all: split; [here | split; reflexivity].
Qed.

(** X10.  An error of the call is the error the constructor threw for the
    options, the not-found error, the invalid-credentials error, or the
    error of a call on the first client that the directory rejected. *)
Theorem failure_origin constructor d username password config e :
  fst (authenticate_call constructor d username password config) = Throw e ->
  constructor (baseClientOptions config) = Some e
  \/ e = not_found_error username
  \/ e = invalid_credentials_error username
  \/ exists ev,
       In ev (snd (authenticate_call constructor d username password config))
       /\ on_client 0 ev = true /\ call_error ev = Some e.
Proof.
  unfold authenticate_call.
  destruct (constructor (baseClientOptions config)) as [e'|].
  - intros H. injection H as <-. left. reflexivity.
  - intros H. right. apply failure_origin_run, H.
Qed.

Lemma failure_origin_witness :
  fst (authenticate_call ldap_urls_only (mock accept_all (inr [jdoe]) None) "jdoe" "pass"
         httpConfig)
  = Throw (new_Error "http://ldap.example.com is an invalid LDAP URL (protocol)")
  /\ ldap_urls_only (baseClientOptions httpConfig)
     = Some (new_Error "http://ldap.example.com is an invalid LDAP URL (protocol)").
Proof.
  split; [reflexivity|].
  destruct (failure_origin ldap_urls_only (mock accept_all (inr [jdoe]) None) "jdoe" "pass"
              httpConfig _ eq_refl) as [H|[H|[H|(ev & Hin & _)]]].
  - exact H.
  - discriminate H.
  - discriminate H.
  - destruct Hin.
Defined.

(** The constructor's error comes before everything: nothing is sent to
    the directory and nothing is logged. *)
Example constructor_error_first :
  authenticate_call ldap_urls_only (mock accept_all (inr [jdoe]) None) "jdoe" "pass"
    httpConfig
  = (Throw (new_Error "http://ldap.example.com is an invalid LDAP URL (protocol)"), []).
Proof. reflexivity. Qed.

(** ** authenticateWithLdap: transport security *)

(** X11.  For a url of the ldaps scheme both clients are constructed with the
    configured [rejectUnauthorized]. *)
Theorem tls_options_applied d username password config c o :
  startsWith (url config) "ldaps://" = true ->
  In (NewClient c o) (snd (run_authenticate d username password config)) ->
  Ldapts.url o = url config
  /\ Ldapts.tlsOptions o = Some (rejectUnauthorized (tls config)).
Proof.
  intros Hs H. rewrite (new_client_options _ _ _ _ _ _ H).
  unfold baseClientOptions. rewrite Hs. split; reflexivity.
Qed.

Lemma tls_options_applied_witness :
  startsWith (url defaultConfig) "ldaps://" = true
  /\ In (NewClient 1 (baseClientOptions defaultConfig))
        (snd (run_authenticate (mock accept_all (inr [jdoe]) None) "jdoe" "pass"
                defaultConfig))
  /\ Ldapts.tlsOptions (baseClientOptions defaultConfig) = Some true.
Proof.
  assert (In (NewClient 1 (baseClientOptions defaultConfig))
            (snd (run_authenticate (mock accept_all (inr [jdoe]) None) "jdoe" "pass"
                    defaultConfig))) as H
    by (do 6 right; left; reflexivity).
  split; [reflexivity|]. split; [exact H|].
  exact (proj2 (tls_options_applied (mock accept_all (inr [jdoe]) None) "jdoe" "pass"
                  defaultConfig 1 _ eq_refl H)).
Defined.

(** X12.  For every other url, upper-case LDAPS included, the [tls] block of
    the configuration has no effect at all on the call. *)
Theorem tls_block_ignored d username password config other :
  startsWith (url config) "ldaps://" = false ->
  run_authenticate d username password (with_tls config other)
  = run_authenticate d username password config.
Proof.
  intros Hs.
  assert (baseClientOptions (with_tls config other) = baseClientOptions config) as Hopts.
  { unfold baseClientOptions. cbn [url with_tls]. rewrite Hs. reflexivity. }
  unfold run_authenticate, authenticateWithLdap. rewrite Hopts. reflexivity.
Qed.

Lemma tls_block_ignored_witness :
  startsWith "LDAPS://ldap.example.com:636" "ldaps://" = false
  /\ run_authenticate (mock accept_all (inr [jdoe]) None) "jdoe" "pass"
       (with_tls
          {| url := "LDAPS://ldap.example.com:636"; bindDN := None; bindCredentials := None;
             searchBase := "ou=users,dc=example,dc=org"; usernameAttribute := "uid";
             searchFilter := "(uid={{username}})"; userAttributes := ["mail"];
             tls := {| rejectUnauthorized := true |} |}
          {| rejectUnauthorized := false |})
     = run_authenticate (mock accept_all (inr [jdoe]) None) "jdoe" "pass"
         {| url := "LDAPS://ldap.example.com:636"; bindDN := None; bindCredentials := None;
            searchBase := "ou=users,dc=example,dc=org"; usernameAttribute := "uid";
            searchFilter := "(uid={{username}})"; userAttributes := ["mail"];
            tls := {| rejectUnauthorized := true |} |}.
Proof.
  split; [reflexivity|].
  apply tls_block_ignored. reflexivity.
Defined.

(** ** Attribute extraction: how the readers agree *)

(** X13.  Whenever the single-value reader finds a string, the list reader
    finds a list that starts with it. *)
Theorem single_value_heads_list entry attribute s :
  extractStringAttribute entry attribute = Some s ->
  exists others, extractStringArrayAttribute entry attribute = Some (s :: others).
Proof.
  unfold extractStringAttribute, extractStringArrayAttribute.
  destruct (Ldapts.get entry attribute) as [| | | |s'| |[|[] rest]];
    simpl; intros H; try discriminate H; injection H as <-; eauto.
Qed.

Lemma single_value_heads_list_witness :
  extractStringAttribute solo "uid" = Some "solo"
  /\ exists others, extractStringArrayAttribute solo "uid" = Some ("solo" :: others).
Proof.
  split; [reflexivity|].
  apply (single_value_heads_list solo "uid" "solo"). reflexivity.
Defined.

(** X14.  The map of raw attributes depends on which names are requested, not
    on their order nor on how often each is listed. *)
Theorem extractAllAttributes_same_names entry attributes1 attributes2 :
  (forall a, In a attributes1 <-> In a attributes2) ->
  extractAllAttributes entry attributes1 = extractAllAttributes entry attributes2.
Proof.
  intros Hsame. apply map_eq. intros a.
  rewrite !extractAllAttributes_lookup.
  destruct (decide (a ∈ attributes1)) as [H1|H1];
    destruct (decide (a ∈ attributes2)) as [H2|H2]; try reflexivity; exfalso.
  - apply H2, list_elem_of_In, Hsame, list_elem_of_In, H1.
  - apply H1, list_elem_of_In, Hsame, list_elem_of_In, H2.
Qed.

Lemma extractAllAttributes_same_names_witness :
  (forall a, In a ["mail"; "memberOf"; "mail"] <-> In a ["memberOf"; "mail"])
  /\ extractAllAttributes jdoe ["mail"; "memberOf"; "mail"]
     = extractAllAttributes jdoe ["memberOf"; "mail"].
Proof.
  assert (forall a : string, In a ["mail"; "memberOf"; "mail"] <-> In a ["memberOf"; "mail"])
    as H by (intros a; simpl; tauto).
  split; [exact H|].
  exact (extractAllAttributes_same_names jdoe _ _ H).
Defined.

(** X15.  The record of a successful call holds raw attributes for requested
    names only. *)
Theorem raw_attributes_only_requested d username password config info a :
  fst (run_authenticate d username password config) = Normal info ->
  is_Some (attributes info !! a) ->
  In a (userAttributes config).
Proof.
  intros Hok [v Hv].
  destruct (authenticate_success _ _ _ _ _ Hok) as (entry & more & _ & _ & ->).
  cbn [attributes user_info] in Hv. rewrite extractAllAttributes_lookup in Hv.
  destruct (decide (a ∈ userAttributes config)) as [Hin|_]; [|discriminate Hv].
  apply list_elem_of_In, Hin.
Qed.

Lemma raw_attributes_only_requested_witness :
  fst (run_authenticate (mock accept_all (inr [jdoe]) None) "jdoe" "pass" defaultConfig)
  = Normal (user_info "jdoe" defaultConfig jdoe)
  /\ is_Some (attributes (user_info "jdoe" defaultConfig jdoe) !! "mail")
  /\ In "mail" (userAttributes defaultConfig).
Proof.
  assert (is_Some (attributes (user_info "jdoe" defaultConfig jdoe) !! "mail")) as H
    by (exists (AttrString "jdoe@example.com"); reflexivity).
  split; [reflexivity|]. split; [exact H|].
  exact (raw_attributes_only_requested (mock accept_all (inr [jdoe]) None) "jdoe" "pass"
           defaultConfig _ "mail" eq_refl H).
Defined.

(** X16.  In the record of a successful call that requested [memberOf], the
    group list is the raw attribute read as a list: a single string
    becomes a list of one, a missing attribute no list. *)
Theorem memberOf_agrees_with_raw d username password config info :
  fst (run_authenticate d username password config) = Normal info ->
  In "memberOf" (userAttributes config) ->
  memberOf info =
    match attributes info !! "memberOf" with
    | Some (AttrString s) => Some [s]
    | Some (AttrStrings l) => Some l
    | None => None
    end.
Proof.
  intros Hok Hin.
  destruct (authenticate_success _ _ _ _ _ Hok) as (entry & more & _ & _ & ->).
  cbn [attributes memberOf user_info]. rewrite extractAllAttributes_lookup.
  rewrite decide_True by (apply list_elem_of_In; exact Hin).
  unfold extractStringArrayAttribute.
  destruct (Ldapts.get entry "memberOf"); reflexivity.
Qed.

Lemma memberOf_agrees_with_raw_witness :
  fst (run_authenticate (mock accept_all (inr [solo]) None) "solo" "pass" defaultConfig)
  = Normal (user_info "solo" defaultConfig solo)
  /\ In "memberOf" (userAttributes defaultConfig)
  /\ attributes (user_info "solo" defaultConfig solo) !! "memberOf"
     = Some (AttrString "cn=ops,ou=groups,dc=example,dc=org")
  /\ memberOf (user_info "solo" defaultConfig solo)
     = Some ["cn=ops,ou=groups,dc=example,dc=org"].
Proof.
  split; [reflexivity|]. split; [simpl; tauto|]. split; [vm_compute; reflexivity|].
  rewrite (memberOf_agrees_with_raw (mock accept_all (inr [solo]) None) "solo" "pass"
             defaultConfig (user_info "solo" defaultConfig solo) eq_refl)
    by (simpl; tauto).
  vm_compute. reflexivity.
Defined.

(** X17.  In the record of a successful call that requested [mail], an email
    address is always the first string of the raw attribute.  The
    converse fails: a raw list whose first element was not a string gives
    no email. *)
Theorem email_heads_raw d username password config info s :
  fst (run_authenticate d username password config) = Normal info ->
  In "mail" (userAttributes config) ->
  email info = Some s ->
  attributes info !! "mail" = Some (AttrString s)
  \/ exists others, attributes info !! "mail" = Some (AttrStrings (s :: others)).
Proof.
  intros Hok Hin.
  destruct (authenticate_success _ _ _ _ _ Hok) as (entry & more & _ & _ & ->).
  cbn [attributes email user_info]. rewrite extractAllAttributes_lookup.
  rewrite decide_True by (apply list_elem_of_In; exact Hin).
  unfold extractStringAttribute.
  destruct (Ldapts.get entry "mail") as [| | | |s'| |[|[] rest]];
    simpl; intros H; try discriminate H; injection H as <-; eauto.
Qed.

Lemma email_heads_raw_witness :
  fst (run_authenticate (mock accept_all (inr [jdoe]) None) "jdoe" "pass" defaultConfig)
  = Normal (user_info "jdoe" defaultConfig jdoe)
  /\ In "mail" (userAttributes defaultConfig)
  /\ email (user_info "jdoe" defaultConfig jdoe) = Some "jdoe@example.com"
  /\ (attributes (user_info "jdoe" defaultConfig jdoe) !! "mail"
      = Some (AttrString "jdoe@example.com")
      \/ exists others,
           attributes (user_info "jdoe" defaultConfig jdoe) !! "mail"
           = Some (AttrStrings ("jdoe@example.com" :: others))).
Proof.
  split; [reflexivity|]. split; [simpl; tauto|]. split; [reflexivity|].
  apply (email_heads_raw (mock accept_all (inr [jdoe]) None) "jdoe" "pass" defaultConfig
           (user_info "jdoe" defaultConfig jdoe) "jdoe@example.com").
  - reflexivity.
  - simpl; tauto.
  - reflexivity.
Defined.

(** ** provider.ts: the configuration getter *)

(** When the loop over the environments ends well, every block was read
    well, and the map holds what was read for the names of the loop and
    what it held before for the others. *)
Lemma read_environments_lookup config envs acc envConfigs env :
  read_environments config envs acc = inr envConfigs ->
  if decide (env ∈ envs)
  then exists read, read_block config env = inr read /\ envConfigs !! env = Some read
  else envConfigs !! env = acc !! env.
Proof.
  revert acc. induction envs as [|first rest IH]; intros acc H.
  - injection H as <-. rewrite decide_False by (rewrite elem_of_nil; tauto). reflexivity.
  - cbn [read_environments] in H. unfold and_then in H.
    destruct (Backstage.getConfig config first) as [e|sub] eqn:Hsub; [discriminate H|].
    destruct (readLdapEnvironmentConfig sub) as [e|read] eqn:Hread; [discriminate H|].
    specialize (IH _ H).
    destruct (decide (env ∈ rest)) as [Hin|Hout].
    + rewrite decide_True by (apply elem_of_cons; auto). exact IH.
    + destruct (decide (env = first)) as [->|Hne].
      * rewrite decide_True by (apply elem_of_cons; auto).
        exists read. split.
        -- unfold read_block, and_then. rewrite Hsub. exact Hread.
        -- rewrite IH. apply lookup_insert_eq.
      * rewrite decide_False by (rewrite elem_of_cons; tauto).
        rewrite IH. apply lookup_insert_ne. congruence.
Qed.

Lemma read_environments_fails config envs acc env e :
  In env envs -> read_block config env = inl e ->
  exists e', read_environments config envs acc = inl e'.
Proof.
  revert acc. induction envs as [|first rest IH]; intros acc Hin Hbad; [destruct Hin|].
  cbn [read_environments]. unfold and_then. unfold read_block, and_then in Hbad.
  destruct (Backstage.getConfig config first) as [e1|sub] eqn:Hsub; [eauto|].
  destruct (readLdapEnvironmentConfig sub) as [e2|read] eqn:Hread; [eauto|].
  destruct Hin as [->|Hin].
  - rewrite Hsub, Hread in Hbad. discriminate Hbad.
  - apply IH; [exact Hin|]. unfold read_block, and_then. exact Hbad.
Qed.

(** X18.  With the flat layout (a url at the top), the getter gives the one
    configuration for every request: the env of the query is ignored,
    even an empty one or one that names nothing. *)
Theorem flat_getter_ignores_env node_env config getter reqEnv :
  Backstage.has config "url" = true ->
  createLdapConfigGetter node_env config = inr getter ->
  exists single,
    readLdapEnvironmentConfig config = inr single /\ getter reqEnv = inr single.
Proof.
  unfold createLdapConfigGetter. intros -> H. unfold and_then in H.
  destruct (readLdapEnvironmentConfig config) as [e|single]; [discriminate H|].
  injection H as <-. eauto.
Qed.

Lemma flat_getter_ignores_env_witness :
  Backstage.has production_block "url" = true
  /\ exists getter,
       createLdapConfigGetter None production_block = inr getter
       /\ exists single,
            readLdapEnvironmentConfig production_block = inr single
            /\ getter (Some "nowhere") = inr single.
Proof.
  split; [reflexivity|].
  eexists. split; [reflexivity|].
  apply (flat_getter_ignores_env None production_block _ (Some "nowhere")); reflexivity.
Defined.

(** X19.  With the scoped layout, a request that names an environment gets the
    configuration read from the block of that name, and the not-found
    error when the name is no key of the configuration. *)
Theorem scoped_getter_named_env node_env config getter env :
  Backstage.has config "url" = false ->
  createLdapConfigGetter node_env config = inr getter ->
  env <> "" ->
  (In env (Backstage.keys config) ->
   exists read, read_block config env = inr read /\ getter (Some env) = inr read)
  /\ (~ In env (Backstage.keys config) ->
      getter (Some env)
      = inl (Backstage.NotFoundError
               ("No configuration available for the '" ++ env
                ++ "' environment of this provider."))).
Proof.
  unfold createLdapConfigGetter. intros -> H Hne. unfold and_then in H.
  destruct (read_environments config (Backstage.keys config) ∅) as [e|envConfigs] eqn:Hread;
    [discriminate H|].
  injection H as <-.
  pose proof (read_environments_lookup _ _ _ _ env Hread) as Hlook.
  assert (truthy (Some env) = true) as Htruthy by (destruct env; [congruence | reflexivity]).
  unfold select_environment. rewrite Htruthy. cbn [default]. unfold id.
  split; intros Hin.
  - rewrite decide_True in Hlook by (apply list_elem_of_In; exact Hin).
    destruct Hlook as (read & Hblock & ->). eauto.
  - rewrite decide_False in Hlook by (rewrite list_elem_of_In; exact Hin).
    rewrite Hlook, lookup_empty. reflexivity.
Qed.

Lemma scoped_getter_named_env_witness :
  Backstage.has (scoped_config [("production", production_block); ("staging", staging_block)])
    "url" = false
  /\ exists getter read,
       createLdapConfigGetter None
         (scoped_config [("production", production_block); ("staging", staging_block)])
       = inr getter
       /\ url read = "ldap://staging.example.com:389"
       /\ getter (Some "staging") = inr read.
Proof.
  split; [reflexivity|].
  eexists. 
  destruct (scoped_getter_named_env None
              (scoped_config [("production", production_block); ("staging", staging_block)])
              _ "staging" eq_refl eq_refl ltac:(discriminate)) as [Hfound _].
  destruct (Hfound ltac:(simpl; tauto)) as (read & Hblock & Hget).
  exists read. split; [reflexivity|]. split; [|exact Hget].
  vm_compute in Hblock. injection Hblock as <-. reflexivity.
Defined.

(** X20.  An empty env in the query is refused with the input error, whatever
    is configured: it is not replaced by the default environment. *)
Theorem scoped_getter_empty_env node_env config getter :
  Backstage.has config "url" = false ->
  createLdapConfigGetter node_env config = inr getter ->
  getter (Some "")
  = inl (Backstage.InputError "Must specify 'env' query to select environment").
Proof.
  unfold createLdapConfigGetter. intros -> H. unfold and_then in H.
  destruct (read_environments config (Backstage.keys config) ∅); [discriminate H|].
  injection H as <-. reflexivity.
Qed.

Lemma scoped_getter_empty_env_witness :
  Backstage.has (scoped_config [("production", production_block)]) "url" = false
  /\ exists getter,
       createLdapConfigGetter None (scoped_config [("production", production_block)])
       = inr getter
       /\ getter (Some "")
          = inl (Backstage.InputError "Must specify 'env' query to select environment").
Proof.
  split; [reflexivity|].
  eexists. split; [reflexivity|].
  apply (scoped_getter_empty_env None (scoped_config [("production", production_block)]));
    reflexivity.
Defined.

(** X21.  A request without env gets the only environment when there is exactly
    one; with several (or none) it gets the development environment when
    the process runs in development mode and that environment is
    configured, and the input error otherwise. *)
Theorem scoped_getter_default node_env config getter :
  Backstage.has config "url" = false ->
  createLdapConfigGetter node_env config = inr getter ->
  (forall only, Backstage.keys config = [only] -> only <> "" ->
     exists read, read_block config only = inr read /\ getter None = inr read)
  /\ (List.length (Backstage.keys config) <> 1 ->
      node_env = Some "development" -> In "development" (Backstage.keys config) ->
      exists read, read_block config "development" = inr read /\ getter None = inr read)
  /\ (List.length (Backstage.keys config) <> 1 ->
      node_env <> Some "development" \/ ~ In "development" (Backstage.keys config) ->
      getter None
      = inl (Backstage.InputError "Must specify 'env' query to select environment")).
Proof.
  unfold createLdapConfigGetter. intros -> H. unfold and_then in H.
  destruct (read_environments config (Backstage.keys config) ∅) as [e|envConfigs] eqn:Hread;
    [discriminate H|].
  injection H as <-.
  split; [|split].
  - intros only Hkeys Hne.
    pose proof (read_environments_lookup _ _ _ _ only Hread) as Hlook.
    rewrite Hkeys in Hlook |- *.
    rewrite decide_True in Hlook by (apply elem_of_cons; auto).
    destruct Hlook as (read & Hblock & Hmap).
    exists read. split; [exact Hblock|].
    unfold select_environment, defaultEnv.
    assert (truthy (Some only) = true) as -> by (destruct only; [congruence | reflexivity]).
    cbn [default]. unfold id. rewrite Hmap. reflexivity.
  - intros Hlen -> Hin.
    pose proof (read_environments_lookup _ _ _ _ "development" Hread) as Hlook.
    rewrite decide_True in Hlook by (apply list_elem_of_In; exact Hin).
    destruct Hlook as (read & Hblock & Hmap).
    exists read. split; [exact Hblock|].
    assert (defaultEnv (Some "development") (Backstage.keys config) envConfigs
            = Some "development") as ->.
    { unfold defaultEnv. rewrite Hmap.
      destruct (Backstage.keys config) as [|only [|second more]];
        [reflexivity | exfalso; apply Hlen; reflexivity | reflexivity]. }
    unfold select_environment. cbn. rewrite Hmap. reflexivity.
  - intros Hlen Hnot.
    assert (defaultEnv node_env (Backstage.keys config) envConfigs = None) as ->;
      [|reflexivity].
    pose proof (read_environments_lookup _ _ _ _ "development" Hread) as Hlook.
    unfold defaultEnv.
    destruct (Backstage.keys config) as [|only [|second more]] eqn:Hkeys;
      [|exfalso; apply Hlen; reflexivity|].
    all: destruct node_env as [mode|]; [|reflexivity].
    all: destruct (String.eqb mode "development") eqn:Hmode; [|reflexivity].
    all: apply String.eqb_eq in Hmode; subst mode.
    all: destruct Hnot as [Hnot|Hnot]; [congruence|].
    all: rewrite decide_False in Hlook by (rewrite list_elem_of_In; exact Hnot).
    all: rewrite Hlook, lookup_empty; reflexivity.
Qed.

Lemma scoped_getter_default_witness :
  Backstage.has (scoped_config [("production", production_block)]) "url" = false
  /\ exists getter read,
       createLdapConfigGetter None (scoped_config [("production", production_block)])
       = inr getter
       /\ getter None = inr read.
Proof.
  split; [reflexivity|].
  eexists.
  destruct (scoped_getter_default None (scoped_config [("production", production_block)])
              _ eq_refl eq_refl) as (Hone & _).
  destruct (Hone "production" eq_refl ltac:(discriminate)) as (read & _ & Hget).
  exists read. split; [reflexivity | exact Hget].
Defined.

(** X22.  The blocks are all read when the getter is created: one block that
    cannot be read leaves no getter at all, for any environment. *)
Theorem broken_block_prevents_getter node_env config env e :
  Backstage.has config "url" = false ->
  In env (Backstage.keys config) ->
  read_block config env = inl e ->
  exists e', createLdapConfigGetter node_env config = inl e'.
Proof.
  unfold createLdapConfigGetter. intros -> Hin Hbad.
  destruct (read_environments_fails config _ ∅ env e Hin Hbad) as [e' ->].
  exists e'. reflexivity.
Qed.

Lemma broken_block_prevents_getter_witness :
  Backstage.has (scoped_config [("production", production_block); ("test", broken_block)])
    "url" = false
  /\ In "test"
       (Backstage.keys (scoped_config [("production", production_block); ("test", broken_block)]))
  /\ read_block (scoped_config [("production", production_block); ("test", broken_block)])
       "test" = inl (missing_key "url")
  /\ exists e',
       createLdapConfigGetter None
         (scoped_config [("production", production_block); ("test", broken_block)])
       = inl e'.
Proof.
  split; [reflexivity|]. split; [simpl; tauto|]. split; [reflexivity|].
  apply (broken_block_prevents_getter None
           (scoped_config [("production", production_block); ("test", broken_block)])
           "test" (missing_key "url")).
  - reflexivity.
  - simpl; tauto.
  - reflexivity.
Defined.

(** ** provider.ts: reading a block, and what the call then does *)

(** A block read with success gives back what its readers gave, the
    optional ones through their defaults. *)
Lemma read_config_fields config read :
  readLdapEnvironmentConfig config = inr read ->
  exists usernameAttribute' searchFilter' userAttributes' rejectUnauthorized',
    Backstage.getString config "url" = inr (url read)
    /\ Backstage.getOptionalString config "bindDN" = inr (bindDN read)
    /\ Backstage.getOptionalString config "bindCredentials" = inr (bindCredentials read)
    /\ Backstage.getString config "searchBase" = inr (searchBase read)
    /\ Backstage.getOptionalString config "usernameAttribute" = inr usernameAttribute'
    /\ usernameAttribute read = default "uid" usernameAttribute'
    /\ Backstage.getOptionalString config "searchFilter" = inr searchFilter'
    /\ searchFilter read = default "(uid={{username}})" searchFilter'
    /\ Backstage.getOptionalStringArray config "userAttributes" = inr userAttributes'
    /\ userAttributes read = default ["mail"; "displayName"; "memberOf"] userAttributes'
    /\ Backstage.getOptionalBoolean config "tls.rejectUnauthorized" = inr rejectUnauthorized'
    /\ rejectUnauthorized (tls read) = default true rejectUnauthorized'.
Proof.
  unfold readLdapEnvironmentConfig, and_then. intros H.
  destruct (Backstage.getString config "url") as [?|v1]; [discriminate H|].
  destruct (Backstage.getOptionalString config "bindDN") as [?|v2]; [discriminate H|].
  destruct (Backstage.getOptionalString config "bindCredentials") as [?|v3];
    [discriminate H|].
  destruct (Backstage.getString config "searchBase") as [?|v4]; [discriminate H|].
  destruct (Backstage.getOptionalString config "usernameAttribute") as [?|v5];
    [discriminate H|].
  destruct (Backstage.getOptionalString config "searchFilter") as [?|v6]; [discriminate H|].
  destruct (Backstage.getOptionalStringArray config "userAttributes") as [?|v7];
    [discriminate H|].
  destruct (Backstage.getOptionalBoolean config "tls.rejectUnauthorized") as [?|v8];
    [discriminate H|].
  injection H as <-. exists v5, v6, v7, v8. repeat split; reflexivity.
Qed.

(** X23.  A block that sets none of the optional search settings makes the
    call search for the uid: for a username without a dollar sign the
    filter is the escaped username in the uid assertion of the default
    template, and the attributes asked for are uid, mail, displayName and
    memberOf. *)
Theorem default_block_search config read d username password c base options reply :
  readLdapEnvironmentConfig config = inr read ->
  Backstage.getOptionalString config "usernameAttribute" = inr None ->
  Backstage.getOptionalString config "searchFilter" = inr None ->
  Backstage.getOptionalStringArray config "userAttributes" = inr None ->
  occurs "$" username = false ->
  In (Search c base options reply) (snd (run_authenticate d username password read)) ->
  Backstage.getString config "searchBase" = inr base
  /\ Ldapts.filter options = "(uid=" ++ escapeLdapFilter username ++ ")"
  /\ Ldapts.attributes options = ["uid"; "mail"; "displayName"; "memberOf"].
Proof.
  intros Hread Huser Hfilter Hattrs Hdollar Hsearch.
  destruct (read_config_fields _ _ Hread)
    as (ua & sf & uas & ru & _ & _ & _ & Hbase & Hua & Hua' & Hsf & Hsf' & Huas & Huas' & _).
  rewrite Huser in Hua. rewrite Hfilter in Hsf. rewrite Hattrs in Huas.
  injection Hua as <-. injection Hsf as <-. injection Huas as <-.
  destruct (search_event_shape _ _ _ _ _ _ _ _ Hsearch) as (_ & -> & ->).
  split; [exact Hbase|].
  unfold search_options. cbn [Ldapts.filter Ldapts.attributes].
  rewrite Hsf', Hua', Huas'. split; [|reflexivity].
  apply build_filter_plain, Hdollar.
Qed.

Lemma default_block_search_witness :
  readLdapEnvironmentConfig production_block = inr anonConfig
  /\ Ldapts.filter (search_options "j*doe" anonConfig) = "(uid=j\2adoe)".
Proof.
  split; [reflexivity|].
  apply (default_block_search production_block anonConfig
           (mock accept_all (inr [jdoe]) None) "j*doe" "pass" 0
           "ou=users,dc=example,dc=org" (search_options "j*doe" anonConfig) (inr [jdoe]));
    try reflexivity.
  do 2 right; left; reflexivity.
Defined.

(** X24.  Server certificates are checked unless the block says otherwise: a
    block with an ldaps url and no [tls.rejectUnauthorized] makes every
    client of the call reject unauthorized certificates. *)
Theorem certificates_checked_by_default config read d username password c o :
  readLdapEnvironmentConfig config = inr read ->
  Backstage.getOptionalBoolean config "tls.rejectUnauthorized" = inr None ->
  startsWith (url read) "ldaps://" = true ->
  In (NewClient c o) (snd (run_authenticate d username password read)) ->
  Ldapts.tlsOptions o = Some true.
Proof.
  intros Hread Hflag Hs Hnew.
  destruct (read_config_fields _ _ Hread)
    as (ua & sf & uas & ru & _ & _ & _ & _ & _ & _ & _ & _ & _ & _ & Hru & Hru').
  rewrite Hflag in Hru. injection Hru as <-.
  rewrite (new_client_options _ _ _ _ _ _ Hnew).
  unfold baseClientOptions. rewrite Hs, Hru'. reflexivity.
Qed.

Lemma certificates_checked_by_default_witness :
  readLdapEnvironmentConfig production_block = inr anonConfig
  /\ Ldapts.tlsOptions (baseClientOptions anonConfig) = Some true.
Proof.
  split; [reflexivity|].
  apply (certificates_checked_by_default production_block anonConfig
           (mock accept_all (inr [jdoe]) None) "jdoe" "pass" 0 (baseClientOptions anonConfig));
    try reflexivity.
  left; reflexivity.
Defined.

(** ** provider.ts: the route handlers *)

Lemma responses_ldap t : responses (map Ldap t) = [].
Proof. induction t as [|ev t IH]; [reflexivity | exact IH]. Qed.

Lemma sign_ins_ldap t : sign_ins (map Ldap t) = [].
Proof. induction t as [|ev t IH]; [reflexivity | exact IH]. Qed.

Lemma ldap_calls_ldap t : ldap_calls (map Ldap t) = t.
Proof.
  induction t as [|ev t IH]; [reflexivity|].
  change (ldap_calls (map Ldap (ev :: t))) with (ev :: ldap_calls (map Ldap t)).
  rewrite IH. reflexivity.
Qed.

Lemma responses_app evs1 evs2 : responses (evs1 ++ evs2)%list = (responses evs1 ++ responses evs2)%list.
Proof. apply omap_app. Qed.

Lemma sign_ins_app evs1 evs2 : sign_ins (evs1 ++ evs2)%list = (sign_ins evs1 ++ sign_ins evs2)%list.
Proof. apply omap_app. Qed.

Lemma ldap_calls_app evs1 evs2 :
  ldap_calls (evs1 ++ evs2)%list = (ldap_calls evs1 ++ ldap_calls evs2)%list.
Proof. apply omap_app. Qed.

(** X25.  A request that is not a POST, or whose username or password is
    missing or empty, leads to no call to the directory, in particular to
    no bind with an empty password, and to no sign-in with the catalog.
    A request that is not a POST gets the 405 and a POST with a body the
    400, each as the only action.  A POST without any body makes the
    handler end with the TypeError of destructuring, thrown before its
    try: no response is sent. *)
Theorem no_call_without_credentials getLdapConfig d ctx req :
  method req <> "POST"
  \/ truthy (body_username req) = false \/ truthy (body_password req) = false ->
  ldap_calls (frameHandler getLdapConfig d ctx req) = []
  /\ sign_ins (frameHandler getLdapConfig d ctx req) = []
  /\ (method req <> "POST"
      /\ frameHandler getLdapConfig d ctx req
         = [Respond 405
              (BodyError
                 "LDAP auth expects POST /handler/frame with a JSON body { username, password }")]
      \/ method req = "POST" /\ req_body req <> None
         /\ frameHandler getLdapConfig d ctx req
            = [Respond 400 (BodyError "Missing username or password in request body")]
      \/ method req = "POST" /\ req_body req = None
         /\ frameHandler getLdapConfig d ctx req = [Rejects body_missing_error]).
Proof.
  intros H. unfold frameHandler, handleCredentialAuth, method_not_allowed.
  destruct (String.eqb (method req) "POST") eqn:Hm; cbn [negb].
  - apply String.eqb_eq in Hm.
    destruct H as [H|H]; [contradiction|].
    unfold body_username, body_password in H.
    destruct (req_body req) as [fields|].
    + assert (negb (truthy (field_username fields)) || negb (truthy (field_password fields))
              = true) as ->
        by (destruct H as [-> | ->]; [reflexivity | apply orb_true_r]).
      split; [reflexivity|]. split; [reflexivity|].
      right. left. split; [exact Hm|]. split; [discriminate | reflexivity].
    + split; [reflexivity|]. split; [reflexivity|].
      right. right. split; [exact Hm|]. split; reflexivity.
  - apply String.eqb_neq in Hm.
    split; [reflexivity|]. split; [reflexivity|]. left. split; [exact Hm | reflexivity].
Qed.

Lemma no_call_without_credentials_witness :
  truthy (body_password (post_jdoe (Some ""))) = false
  /\ ldap_calls (frameHandler (fun _ => inr defaultConfig) (mock accept_all (inr [jdoe]) None)
                   catalog (post_jdoe (Some ""))) = []
  /\ truthy (body_username post_without_body) = false
  /\ ldap_calls (frameHandler (fun _ => inr defaultConfig) (mock accept_all (inr [jdoe]) None)
                   catalog post_without_body) = [].
Proof.
  split; [reflexivity|]. split.
  - apply (no_call_without_credentials (fun _ => inr defaultConfig)
             (mock accept_all (inr [jdoe]) None) catalog (post_jdoe (Some ""))).
    right; right; reflexivity.
  - split; [reflexivity|].
    apply (no_call_without_credentials (fun _ => inr defaultConfig)
             (mock accept_all (inr [jdoe]) None) catalog post_without_body).
    right; left; reflexivity.
Defined.

(** X26.  Every request that is not a POST, and every POST that has a
    body, gets exactly one response, sent last, with status 200, 400, 401
    or 405.  A POST without a body gets none: the handler ends with the
    TypeError of destructuring and that is all it does. *)
Theorem exactly_one_response getLdapConfig d ctx req :
  (method req <> "POST" \/ req_body req <> None ->
   exists before status body,
     frameHandler getLdapConfig d ctx req = (before ++ [Respond status body])%list
     /\ responses before = []
     /\ (status = 200 \/ status = 400 \/ status = 401 \/ status = 405))
  /\ (method req = "POST" -> req_body req = None ->
      frameHandler getLdapConfig d ctx req = [Rejects body_missing_error]
      /\ responses (frameHandler getLdapConfig d ctx req) = []).
Proof.
  unfold frameHandler, handleCredentialAuth, method_not_allowed, respond_failure.
  split.
  - intros Hreq.
    destruct (String.eqb (method req) "POST") eqn:Hm; cbn [negb].
    2:{ exists [], 405, (BodyError
          "LDAP auth expects POST /handler/frame with a JSON body { username, password }").
        repeat split; auto. }
    apply String.eqb_eq in Hm.
    destruct Hreq as [Hreq|Hreq]; [contradiction|].
    destruct (req_body req) as [fields|]; [|contradiction].
    destruct (negb (truthy (field_username fields)) || negb (truthy (field_password fields))).
    { exists [], 400, (BodyError "Missing username or password in request body").
      repeat split; auto. }
    destruct (getLdapConfig (query_env req)) as [e|ldapConfig].
    { eexists [_], _, _. split; [reflexivity|]. split; [reflexivity|]. cbn. auto. }
    destruct (run_authenticate d _ _ ldapConfig) as [[info|e] t].
    + destruct (signInWithCatalogUser ctx (ByEntityRef (uid info))) as [e|result].
      * eexists (map Ldap t ++ [_; _])%list, _, _. split.
        -- rewrite <- app_assoc. reflexivity.
        -- rewrite responses_app, responses_ldap. split; [reflexivity|]. cbn. auto.
      * eexists (map Ldap t ++ [_])%list, _, _. split.
        -- rewrite <- app_assoc. reflexivity.
        -- rewrite responses_app, responses_ldap. split; [reflexivity|]. auto.
    + eexists (map Ldap t ++ [_])%list, _, _. split.
      * rewrite <- app_assoc. reflexivity.
      * rewrite responses_app, responses_ldap. split; [reflexivity|]. cbn. auto.
  - intros -> ->. split; reflexivity.
Qed.

Lemma exactly_one_response_witness :
  (method post_without_body = "POST" /\ req_body post_without_body = None)
  /\ responses (frameHandler (fun _ => inr defaultConfig) (mock accept_all (inr [jdoe]) None)
                  catalog post_without_body) = []
  /\ req_body (post_jdoe (Some "correct-password")) <> None
  /\ exists before status body,
       frameHandler (fun _ => inr defaultConfig) (mock accept_all (inr [jdoe]) None) catalog
         (post_jdoe (Some "correct-password"))
       = (before ++ [Respond status body])%list
       /\ responses before = []
       /\ (status = 200 \/ status = 400 \/ status = 401 \/ status = 405).
Proof.
  split; [split; reflexivity|]. split.
  - apply (exactly_one_response (fun _ => inr defaultConfig)
             (mock accept_all (inr [jdoe]) None) catalog post_without_body); reflexivity.
  - split; [discriminate|].
    apply (exactly_one_response (fun _ => inr defaultConfig)
             (mock accept_all (inr [jdoe]) None) catalog (post_jdoe (Some "correct-password"))).
    right. discriminate.
Defined.

(** X27.  A well-formed POST is answered with 200 exactly when the
    configuration was found, the directory accepted the user and the
    catalog knows the uid of the record; the body then carries the uid,
    groups, email and display name of the record and the token of the
    catalog. *)
Theorem signed_in_iff getLdapConfig d ctx req body :
  method req = "POST" ->
  truthy (body_username req) = true -> truthy (body_password req) = true ->
  responses (frameHandler getLdapConfig d ctx req) = [(200, body)] <->
  exists ldapConfig userInfo result,
    getLdapConfig (query_env req) = inr ldapConfig
    /\ fst (run_authenticate d (default "" (body_username req))
              (default "" (body_password req)) ldapConfig) = Normal userInfo
    /\ signInWithCatalogUser ctx (ByEntityRef (uid userInfo)) = inr result
    /\ body = BodySignedIn (uid userInfo) (memberOf userInfo) (email userInfo)
                (displayName userInfo) (token result) (identity result).
Proof.
  intros Hm Hu Hp. unfold frameHandler, handleCredentialAuth, respond_failure.
  rewrite Hm, String.eqb_refl. cbn [negb].
  unfold body_username, body_password in *.
  destruct (req_body req) as [fields|]; [|discriminate Hu].
  cbv beta iota. rewrite Hu, Hp. cbn [negb orb].
  destruct (getLdapConfig (query_env req)) as [e|ldapConfig].
  { split; [intros H; discriminate H|].
    intros (? & ? & ? & H & _). discriminate H. }
  destruct (run_authenticate d _ _ ldapConfig) as [[info|e] t] eqn:Hrun; cbv beta iota.
  - rewrite responses_app, responses_ldap.
    destruct (signInWithCatalogUser ctx (ByEntityRef (uid info))) as [e|result] eqn:Hsign.
    + split; [intros H; discriminate H|].
      intros (? & ? & ? & Hc & Hi & Hs & _).
      injection Hc as <-. rewrite Hrun in Hi. injection Hi as <-.
      rewrite Hsign in Hs. discriminate Hs.
    + split.
      * intros H. injection H as <-. exists ldapConfig, info, result.
        split; [reflexivity|]. split; [rewrite Hrun; reflexivity|].
        split; [exact Hsign | reflexivity].
      * intros (? & ? & ? & Hc & Hi & Hs & ->).
        injection Hc as <-. rewrite Hrun in Hi. injection Hi as <-.
        rewrite Hsign in Hs. injection Hs as <-. reflexivity.
  - rewrite responses_app, responses_ldap.
    split; [intros H; discriminate H|].
    intros (? & ? & ? & Hc & Hi & _). injection Hc as <-.
    rewrite Hrun in Hi. discriminate Hi.
Qed.

Lemma signed_in_iff_witness :
  method (post_jdoe (Some "correct-password")) = "POST"
  /\ responses (frameHandler (fun _ => inr defaultConfig) (mock accept_all (inr [jdoe]) None)
                  catalog (post_jdoe (Some "correct-password")))
     = [(200, BodySignedIn "jdoe" (Some ["cn=developers,ou=groups,dc=example,dc=org"])
               (Some "jdoe@example.com") (Some "John Doe") "backstage-token-123"
               (Some {| identity_type := "user"; userEntityRef := "user:default/jdoe";
                        ownershipEntityRefs := ["user:default/jdoe"] |}))].
Proof.
  split; [reflexivity|].
  apply (signed_in_iff (fun _ => inr defaultConfig) (mock accept_all (inr [jdoe]) None)
           catalog (post_jdoe (Some "correct-password")) _ eq_refl eq_refl eq_refl).
  exists defaultConfig, (user_info "jdoe" defaultConfig jdoe), 
    {| token := "backstage-token-123";
       identity := Some {| identity_type := "user"; userEntityRef := "user:default/jdoe";
                           ownershipEntityRefs := ["user:default/jdoe"] |} |}.
  repeat split; reflexivity.
Defined.

(** X28.  Whatever fails after the body was checked, be it the choice of the
    environment, the directory or the catalog, is answered with status
    401 and the name AuthenticationError, carrying the message of the
    error, which is also written to the error log. *)
Theorem failure_answered_401 getLdapConfig d ctx req status body :
  method req = "POST" ->
  truthy (body_username req) = true -> truthy (body_password req) = true ->
  responses (frameHandler getLdapConfig d ctx req) = [(status, body)] ->
  status <> 200 ->
  exists e,
    (getLdapConfig (query_env req) = inl e
     \/ (exists ldapConfig,
           getLdapConfig (query_env req) = inr ldapConfig
           /\ (fst (run_authenticate d (default "" (body_username req))
                      (default "" (body_password req)) ldapConfig) = Throw e
               \/ exists userInfo,
                    fst (run_authenticate d (default "" (body_username req))
                           (default "" (body_password req)) ldapConfig) = Normal userInfo
                    /\ signInWithCatalogUser ctx (ByEntityRef (uid userInfo)) = inl e)))
    /\ status = 401
    /\ body = BodyAuthenticationError "AuthenticationError"
                (error_message (auth_failure_response e))
    /\ In (LogError ("LDAP authentication failed: "
                     ++ error_message (auth_failure_response e)))
          (frameHandler getLdapConfig d ctx req).
Proof.
  intros Hm Hu Hp. unfold frameHandler, handleCredentialAuth, respond_failure.
  rewrite Hm, String.eqb_refl. cbn [negb].
  unfold body_username, body_password in *.
  destruct (req_body req) as [fields|]; [|discriminate Hu].
  cbv beta iota. rewrite Hu, Hp. cbn [negb orb].
  destruct (getLdapConfig (query_env req)) as [e|ldapConfig].
  { intros H _. injection H as <- <-. exists e.
    split; [left; reflexivity|]. repeat split; try reflexivity. left; reflexivity. }
  destruct (run_authenticate d _ _ ldapConfig) as [[info|e] t] eqn:Hrun; cbv beta iota.
  - rewrite responses_app, responses_ldap.
    destruct (signInWithCatalogUser ctx (ByEntityRef (uid info))) as [e|result] eqn:Hsign.
    + intros H _. injection H as <- <-. exists e. split.
      * right. exists ldapConfig. split; [reflexivity|]. right. exists info.
        split; [rewrite Hrun; reflexivity | exact Hsign].
      * repeat split; try reflexivity. apply in_or_app. right. right. left. reflexivity.
    + intros H Hne. injection H as <- _. contradiction.
  - rewrite responses_app, responses_ldap.
    intros H _. injection H as <- <-. exists e. split.
    + right. exists ldapConfig. split; [reflexivity|]. left. rewrite Hrun. reflexivity.
    + repeat split; try reflexivity. apply in_or_app. right. left. reflexivity.
Qed.

Lemma failure_answered_401_witness :
  responses (frameHandler (fun _ => inr defaultConfig)
               (mock (reject_user (new_Error "Invalid credentials")) (inr [jdoe]) None)
               catalog (post_jdoe (Some "wrong")))
  = [(401, BodyAuthenticationError "AuthenticationError" "Invalid credentials for user 'jdoe'")]
  /\ exists e,
       fst (run_authenticate
              (mock (reject_user (new_Error "Invalid credentials")) (inr [jdoe]) None)
              "jdoe" "wrong" defaultConfig) = Throw e.
Proof.
  assert (responses (frameHandler (fun _ => inr defaultConfig)
                       (mock (reject_user (new_Error "Invalid credentials")) (inr [jdoe]) None)
                       catalog (post_jdoe (Some "wrong")))
          = [(401, BodyAuthenticationError "AuthenticationError"
                     "Invalid credentials for user 'jdoe'")]) as H by reflexivity.
  split; [exact H|].
  destruct (failure_answered_401 (fun _ => inr defaultConfig)
              (mock (reject_user (new_Error "Invalid credentials")) (inr [jdoe]) None)
              catalog (post_jdoe (Some "wrong")) 401 _ eq_refl eq_refl eq_refl H
              ltac:(discriminate))
    as (e & [Hc|(cfg & Hc & [Hrun|(info & Hrun & _)])] & _).
  - discriminate Hc.
  - injection Hc as <-. exists e. exact Hrun.
  - injection Hc as <-. discriminate Hrun.
Defined.

(** X29.  The catalog is asked at most once, and only for a user the directory
    has just accepted: the query is the entity name equal to the uid of
    the record, and the directory calls of the handler hold the accepted
    bind of that user with the submitted password. *)
Theorem catalog_asked_after_bind getLdapConfig d ctx req query others :
  sign_ins (frameHandler getLdapConfig d ctx req) = query :: others ->
  others = []
  /\ exists ldapConfig entry,
       getLdapConfig (query_env req) = inr ldapConfig
       /\ query = ByEntityRef (uid (user_info (default "" (body_username req)) ldapConfig entry))
       /\ In (Bind 1 (Ldapts.dn entry) (default "" (body_password req)) None)
             (ldap_calls (frameHandler getLdapConfig d ctx req)).
Proof.
  unfold frameHandler, handleCredentialAuth, method_not_allowed, respond_failure.
  destruct (negb (String.eqb (method req) "POST")); [intros H; discriminate H|].
  unfold body_username, body_password.
  destruct (req_body req) as [fields|]; [|intros H; discriminate H].
  cbv beta iota.
  destruct (negb (truthy (field_username fields)) || negb (truthy (field_password fields)));
    [intros H; discriminate H|].
  destruct (getLdapConfig (query_env req)) as [e|ldapConfig]; [intros H; discriminate H|].
  destruct (run_authenticate d _ _ ldapConfig) as [out t] eqn:Hrun. cbv beta iota.
  rewrite sign_ins_app, sign_ins_ldap, ldap_calls_app, ldap_calls_ldap.
  destruct out as [info|e]; [|intros H; discriminate H].
  assert (fst (run_authenticate d (default "" (field_username fields))
                 (default "" (field_password fields)) ldapConfig) = Normal info) as Hok
    by (rewrite Hrun; reflexivity).
  destruct (authenticate_success _ _ _ _ _ Hok) as (entry & more & _ & Hbind & ->).
  rewrite Hrun in Hbind. cbn [snd] in Hbind.
  intros H.
  assert (others = [] /\ query = ByEntityRef
            (uid (user_info (default "" (field_username fields)) ldapConfig entry)))
    as [-> ->].
  { destruct (signInWithCatalogUser ctx _); cbn in H; injection H as <- <-; auto. }
  split; [reflexivity|].
  exists ldapConfig, entry. split; [reflexivity|]. split; [reflexivity|].
  apply in_or_app. left. exact Hbind.
Qed.

Lemma catalog_asked_after_bind_witness :
  sign_ins (frameHandler (fun _ => inr defaultConfig) (mock accept_all (inr [jdoe]) None)
              catalog (post_jdoe (Some "correct-password")))
  = [ByEntityRef "jdoe"]
  /\ exists ldapConfig entry,
       (inr defaultConfig : thrown + LdapClientConfig) = inr ldapConfig
       /\ ByEntityRef "jdoe" = ByEntityRef (uid (user_info "jdoe" ldapConfig entry))
       /\ In (Bind 1 (Ldapts.dn entry) "correct-password" None)
             (ldap_calls (frameHandler (fun _ => inr defaultConfig)
                            (mock accept_all (inr [jdoe]) None) catalog
                            (post_jdoe (Some "correct-password")))).
Proof.
  assert (sign_ins (frameHandler (fun _ => inr defaultConfig)
                      (mock accept_all (inr [jdoe]) None)
                      catalog (post_jdoe (Some "correct-password")))
          = [ByEntityRef "jdoe"]) as H by reflexivity.
  split; [exact H|].
  exact (proj2 (catalog_asked_after_bind (fun _ => inr defaultConfig)
                  (mock accept_all (inr [jdoe]) None) catalog
                  (post_jdoe (Some "correct-password")) _ _ H)).
Defined.

(** ** resolvers.ts *)

(** The handler signs in the way [usernameMatchingUserEntityName] does:
    both ask the catalog for the entity named by the uid of the record,
    which is the submitted username when the entry has no usable username
    attribute. *)
Lemma username_resolver_query ctx d username password config info :
  fst (run_authenticate d username password config) = Normal info ->
  exists entry more,
    In (Search 0 (searchBase config) (search_options username config) (inr (entry :: more)))
       (snd (run_authenticate d username password config))
    /\ usernameMatchingUserEntityName ctx info
       = signInWithCatalogUser ctx
           (ByEntityRef
              match Ldapts.get entry (usernameAttribute config) with
              | JString s => s
              | JArray (JString s :: _) => s
              | _ => username
              end).
Proof.
  intros Hok.
  destruct (authenticate_success _ _ _ _ _ Hok) as (entry & more & Hfound & _ & ->).
  exists entry, more. split; [exact Hfound|].
  unfold usernameMatchingUserEntityName, user_info. cbn [uid].
  rewrite extractStringAttribute_cases.
  destruct (Ldapts.get entry (usernameAttribute config)) as [| | | | | |[|[] ?]]; reflexivity.
Qed.

Lemma username_resolver_query_witness :
  fst (run_authenticate (mock accept_all (inr [solo]) None) "solo" "pass" defaultConfig)
  = Normal (user_info "solo" defaultConfig solo)
  /\ exists entry more,
       In (Search 0 (searchBase defaultConfig) (search_options "solo" defaultConfig)
             (inr (entry :: more)))
          (snd (run_authenticate (mock accept_all (inr [solo]) None) "solo" "pass"
                  defaultConfig))
       /\ usernameMatchingUserEntityName catalog (user_info "solo" defaultConfig solo)
          = signInWithCatalogUser catalog
              (ByEntityRef
                 match Ldapts.get entry (usernameAttribute defaultConfig) with
                 | JString s => s
                 | JArray (JString s :: _) => s
                 | _ => "solo"
                 end).
Proof.
  split; [reflexivity|].
  apply (username_resolver_query catalog (mock accept_all (inr [solo]) None) "solo" "pass"
           defaultConfig).
  reflexivity.
Defined.

(** X30.  [emailMatchingUserEntityAnnotation] asks the catalog for the
    annotation backstage.io/ldap-email with the first mail value of the
    matched entry; when the entry has no mail, a mail that is not a
    string, or an empty one, it is rejected with its own error and the
    answer of the catalog plays no part. *)
Theorem email_resolver_query ctx d username password config info :
  fst (run_authenticate d username password config) = Normal info ->
  exists entry more,
    In (Search 0 (searchBase config) (search_options username config) (inr (entry :: more)))
       (snd (run_authenticate d username password config))
    /\ emailMatchingUserEntityAnnotation ctx info
       = match extractStringAttribute entry "mail" with
         | Some (String c rest) =>
             signInWithCatalogUser ctx
               (ByAnnotations [("backstage.io/ldap-email", String c rest)])
         | _ =>
             inl (new_Error
                    "LDAP user does not have an email attribute, cannot resolve to a Backstage user")
         end.
Proof.
  intros Hok.
  destruct (authenticate_success _ _ _ _ _ Hok) as (entry & more & Hfound & _ & ->).
  exists entry, more. split; [exact Hfound|].
  unfold emailMatchingUserEntityAnnotation, user_info. cbn [email].
  destruct (extractStringAttribute entry "mail") as [[|c rest]|]; reflexivity.
Qed.

Lemma email_resolver_query_witness :
  fst (run_authenticate (mock accept_all (inr [jdoe]) None) "jdoe" "pass" defaultConfig)
  = Normal (user_info "jdoe" defaultConfig jdoe)
  /\ exists entry more,
       In (Search 0 (searchBase defaultConfig) (search_options "jdoe" defaultConfig)
             (inr (entry :: more)))
          (snd (run_authenticate (mock accept_all (inr [jdoe]) None) "jdoe" "pass"
                  defaultConfig))
       /\ emailMatchingUserEntityAnnotation catalog (user_info "jdoe" defaultConfig jdoe)
          = match extractStringAttribute entry "mail" with
            | Some (String c rest) =>
                signInWithCatalogUser catalog
                  (ByAnnotations [("backstage.io/ldap-email", String c rest)])
            | _ =>
                inl (new_Error
                       "LDAP user does not have an email attribute, cannot resolve to a Backstage user")
            end.
Proof.
  split; [reflexivity|].
  apply (email_resolver_query catalog (mock accept_all (inr [jdoe]) None) "jdoe" "pass"
           defaultConfig).
  reflexivity.
Defined.
